(** * Settings, onboarding and provider-configuration layer of the desktop shell

    A shallow embedding of the TypeScript sources: the embedded-model control
    centre (sidecar and model controllers, sidecar port form), the regular
    provider setup form, the custom-provider form schema, the command-line
    error helpers and the onboarding context hook.

    JavaScript objects used as records with string keys are finite maps
    ([gmap string JsValue]); handlers that toast, validate credentials or
    write settings run in a small state-and-exception monad over a [World]
    that holds the settings store and the chronological list of calls made
    to the external collaborators. *)

From stdpp Require Import base strings gmap list.
From Stdlib Require Import ZArith Lia Ascii String.

Open Scope string_scope.

(** ** JavaScript values *)

(** The members of [AvailableAiProviders] that the sources name are
    [EMBEDDED] and [SCREENPIPE_CLOUD]; the enum's declaration
    (types/available-providers) is not among the sources, so every other
    member is kept by its name. *)
Inductive AvailableAiProviders :=
  | EMBEDDED
  | SCREENPIPE_CLOUD
  | OTHER_PROVIDER (name : string).

#[global] Instance AvailableAiProviders_eq_dec : EqDecision AvailableAiProviders.
Proof. solve_decision. Defined.

(** A JavaScript number as far as the code produces one: the results of
    [parseInt] are NaN, an integer, the negative zero and the two
    infinities. *)
Inductive JsNumber :=
  | NaN
  | Int (z : Z)
  | NegativeZero
  | Infinity (negative : bool).

#[warnings="-register-all"] Inductive JsValue :=
  | VUndefined
  | VString (s : string)
  | VNumber (n : JsNumber)
  | VBool (b : bool)
  | VProvider (p : AvailableAiProviders)
  | VObject (o : gmap string JsValue).

(** ** Status enumerations (providers/embedded/provider-metadata)

    The declarations are not among the sources; the members are the four
    keys of the [tooltipTexts] tables of the two controllers. *)
Inductive SidecarState :=
  | SidecarState_INACTIVE
  | SidecarState_ERROR
  | SidecarState_ACTIVE
  | SidecarState_UNKNOWN.

Inductive ModelState :=
  | ModelState_INACTIVE
  | ModelState_ERROR
  | ModelState_RUNNING
  | ModelState_UNKNOWN.

#[global] Instance SidecarState_eq_dec : EqDecision SidecarState.
Proof. solve_decision. Defined.

#[global] Instance ModelState_eq_dec : EqDecision ModelState.
Proof. solve_decision. Defined.

(** ** The settings record, thrown values, notifications *)

(** [settings.embeddedLLM] and the fields of [Settings] that the code reads;
    the declaration (lib/hooks/use-settings) is not among the sources, the
    remaining fields are kept as a map. *)
Record EmbeddedLLMConfig := {
  port : JsNumber;
  model : string;
  enabled : bool
}.

Record Settings := {
  aiProviderType : AvailableAiProviders;
  embeddedLLM : EmbeddedLLMConfig;
  otherSettings : gmap string JsValue
}.

(** A thrown value as far as the handlers read it: its [message] property,
    [None] when the property is undefined. *)
Record Thrown := { message : option string }.

(** [new Error(m)]: an undefined argument gives the empty message. *)
Definition newError (m : option string) : Thrown :=
  {| message := Some (default "" m) |}.

(** Truthiness of [e.message]: undefined and the empty string are falsy. *)
Definition truthyMessage (m : option string) : bool :=
  match m with
  | Some s => negb (String.eqb s "")
  | None => false
  end.

Record Toast := {
  title : string;
  description : option string;
  variant : option string
}.

(** Calls that cross the boundary to an external collaborator. *)
Inductive Event :=
  | EvToast (t : Toast)
  | EvCredentialValidation (p : AvailableAiProviders) (values : gmap string JsValue)
  | EvUpdateSettings (values : gmap string JsValue)
  | EvOpenUrl (url : string)
  | EvFormReset (values : option (gmap string JsValue))
  | EvSetAiProvider (p : AvailableAiProviders)
  | EvLoggerError (line : string)
  | EvLoggerBreak
  | EvConsoleError (line : string)
  | EvProcessExit (code : Z).

Record World := {
  store : Settings;
  log : list Event
}.

(** The external collaborators: the settings store's [updateSettings], which
    may throw (the handlers call it without awaiting it, so a throw is a
    synchronous one), and the [AiProviders] table with each provider's
    optional [credentialValidation], which rejects with a thrown value or
    resolves. *)
Record Collaborators := {
  updateSettings_store : gmap string JsValue → Settings → Thrown + Settings;
  AiProviders_credentialValidation :
    AvailableAiProviders → option (gmap string JsValue → option Thrown)
}.

(** ** Handlers: state and exceptions *)

Definition M (A : Type) : Type := World → (Thrown + A) * World.

#[global] Instance M_ret : MRet M := fun A a w => (inr a, w).

Definition throw {A} (e : Thrown) : M A := fun w => (inl e, w).

#[global] Instance M_bind : MBind M := fun A B k m w =>
  match m w with
  | (inr a, w') => k a w'
  | (inl e, w') => (inl e, w')
  end.

Definition tryCatch {A} (m : M A) (handler : Thrown → M A) : M A :=
  fun w =>
    match m w with
    | (inr a, w') => (inr a, w')
    | (inl e, w') => handler e w'
    end.

Definition emit (e : Event) : M unit :=
  fun w => (inr tt, {| store := store w; log := log w ++ [e] |}).

Definition toast (t : Toast) : M unit := emit (EvToast t).

(** [updateSettings(values)] of the settings hook. *)
Definition updateSettings (env : Collaborators) (values : gmap string JsValue) : M unit :=
  fun w =>
    let w1 := {| store := store w; log := log w ++ [EvUpdateSettings values] |} in
    match updateSettings_store env values (store w) with
    | inr s' => (inr tt, {| store := s'; log := log w1 |})
    | inl e => (inl e, w1)
    end.

(** [mutateAsync] of [useMutation]: runs [mutationFn]; when it resolves,
    [onSuccess] runs and the promise resolves; when it rejects, [onError]
    runs with the error and the promise rejects with that error. *)
Definition mutateAsync {V} (mutationFn : V → M unit) (onSuccess : M unit)
    (onError : Thrown → M unit) (values : V) : M unit :=
  fun w =>
    match mutationFn values w with
    | (inr tt, w') => onSuccess w'
    | (inl e, w') =>
        match onError e w' with
        | (inr tt, w'') => (inl e, w'')
        | (inl e', w'') => (inl e', w'')
        end
    end.

(** ** Embedded control centre: [SidecarController] *)

Module SidecarController.

Definition isPlayButtonDisabled (sidecarStatus : SidecarState) (isDirty : bool) : bool :=
  if bool_decide (sidecarStatus = SidecarState_ACTIVE)
     || bool_decide (sidecarStatus = SidecarState_UNKNOWN)
     || isDirty
  then true
  else false.

Definition isPauseButtonDisabled (sidecarStatus : SidecarState) : bool :=
  if bool_decide (sidecarStatus ≠ SidecarState_ACTIVE) then true else false.

Definition updateSettingsAsync_onError (e : Thrown) : M unit :=
  toast {| title := "form submission failed!";
           description :=
             Some (if truthyMessage (message e)
                   then default "" (message e)
                   else "please try again.");
           variant := Some "destructive" |}.

Definition updateSettingsAsync (env : Collaborators) : gmap string JsValue → M unit :=
  mutateAsync
    (fun values => updateSettings env values)
    (toast {| title := "sidecar default port updated";
              description := None; variant := None |})
    updateSettingsAsync_onError.

(** [values] is the form's [{ port: string }]; [settings] is the record the
    component rendered with; [parseInt] is the built-in of the language,
    taken as it is. *)
Definition handleFormSubmit (parseInt : string → Z → JsNumber)
    (env : Collaborators) (settings : Settings) (values_port : string) : M unit :=
  updateSettingsAsync env
    {[ "embeddedLLM" :=
         VObject
           (<[ "port" := VNumber (parseInt values_port 10%Z) ]>
            (<[ "model" := VString (model (embeddedLLM settings)) ]>
             (<[ "enabled" := VBool true ]> ∅))) ]};;
  emit (EvFormReset (Some {[ "port" := VString values_port ]})).

Definition resetForm : M unit := emit (EvFormReset None).

(** What a render hands to the two buttons. *)
Record Rendered := {
  playDisabled : bool;
  pauseDisabled : bool;
  showEraseAndSave : bool
}.

Definition render (sidecarStatus : SidecarState) (isDirty : bool) : Rendered :=
  {| playDisabled := isPlayButtonDisabled sidecarStatus isDirty;
     pauseDisabled := isPauseButtonDisabled sidecarStatus;
     showEraseAndSave := isDirty |}.

End SidecarController.

(** ** Embedded control centre: [ModelController] *)

Module ModelController.

Definition selectDisabled (sidecarStatus : SidecarState) : bool :=
  if bool_decide (sidecarStatus ≠ SidecarState_ACTIVE) then true else false.

Definition playButtonDisabled (sidecarStatus : SidecarState) (modelStatus : ModelState) : bool :=
  if bool_decide (sidecarStatus ≠ SidecarState_ACTIVE) then true
  else if bool_decide (modelStatus = ModelState_RUNNING)
          || bool_decide (modelStatus = ModelState_ERROR) then true
  else false.

Definition pauseButtonDisabled (sidecarStatus : SidecarState) (modelStatus : ModelState) : bool :=
  if bool_decide (sidecarStatus ≠ SidecarState_ACTIVE) then true
  else if bool_decide (modelStatus ≠ ModelState_RUNNING) then true
  else false.

Record Rendered := {
  selectIsDisabled : bool;
  playDisabled : bool;
  pauseDisabled : bool
}.

Definition render (sidecarStatus : SidecarState) (modelStatus : ModelState) : Rendered :=
  {| selectIsDisabled := selectDisabled sidecarStatus;
     playDisabled := playButtonDisabled sidecarStatus modelStatus;
     pauseDisabled := pauseButtonDisabled sidecarStatus modelStatus |}.

End ModelController.

(** ** Embedded control centre: [EmbeddedSetupForm] *)

Module EmbeddedSetupForm.

Definition updateSettingsAsync_onError (e : Thrown) : M unit :=
  toast {| title := "ai provider update failed!";
           description :=
             Some (if truthyMessage (message e)
                   then default "" (message e)
                   else "please try again.");
           variant := Some "destructive" |}.

Definition updateSettingsAsync (env : Collaborators) : gmap string JsValue → M unit :=
  mutateAsync
    (fun values => updateSettings env values)
    (toast {| title := "ai provider info updated";
              description := None; variant := None |})
    updateSettingsAsync_onError.

Definition submitChanges (parseInt : string → Z → JsNumber)
    (env : Collaborators) (settings : Settings) (values_port : string) : M unit :=
  updateSettingsAsync env
    {[ "embeddedLLM" :=
         VObject
           (<[ "port" := VNumber (parseInt values_port 10%Z) ]>
            (<[ "model" := VString (model (embeddedLLM settings)) ]>
             (<[ "enabled" := VBool true ]> ∅))) ]}.

End EmbeddedSetupForm.

(** ** Embedded control centre: the exported component *)

Module EmbeddedControlCenter.

(** What the hooks deliver to the two controllers at a render: the
    settings, the two polled statuses of the model context and the dirty
    flag of the port form. *)
Record Inputs := {
  settings : Settings;
  sidecarStatus : SidecarState;
  modelStatus : ModelState;
  portFormIsDirty : bool
}.

Inductive ControlButton :=
  | StartSidecar
  | StopSidecar
  | StartModel
  | StopModel.

Definition render (i : Inputs) : SidecarController.Rendered * ModelController.Rendered :=
  (SidecarController.render (sidecarStatus i) (portFormIsDirty i),
   ModelController.render (sidecarStatus i) (modelStatus i)).

(** The [disabled] prop that the render gives to a button. *)
Definition disabled (b : ControlButton) (i : Inputs) : bool :=
  match b with
  | StartSidecar => SidecarController.playDisabled (render i).1
  | StopSidecar => SidecarController.pauseDisabled (render i).1
  | StartModel => ModelController.playDisabled (render i).2
  | StopModel => ModelController.pauseDisabled (render i).2
  end.

End EmbeddedControlCenter.

(** ** Form entities (modules/form/entities)

    The type declarations are not among the sources; the records list the
    properties that the field descriptors of the sources set. *)

Inductive FieldType :=
  | STRING
  | SELECT
  | SELECT_CREATEABLE
  | TEXTAREA
  | SLIDER.

Record SelectOption := {
  option_value : string;
  option_label : string
}.

Record ValidationMeta := {
  errorMessage : option string;
  min : option nat;
  max : option nat;
  optional : bool
}.

Record TypeMeta := {
  isRegular : bool;
  type : FieldType;
  options : option (list SelectOption)
}.

Record FieldSchema := {
  key : string;
  field_title : string;
  placeholder : option string;
  validationMeta : ValidationMeta;
  typeMeta : TypeMeta
}.

Record FormSchema := {
  form_title : string;
  form_fields : list FieldSchema;
  buttonText : string
}.

(** ** Regular provider setup form *)

Module RegularProviderSetupForm.

Definition updateSettingsAsync_onError (e : Thrown) : M unit :=
  toast {| title := "ai provider update failed!";
           description :=
             Some (if truthyMessage (message e)
                   then default "" (message e)
                   else "please try again.");
           variant := Some "destructive" |}.

Definition updateSettingsAsync (env : Collaborators) : gmap string JsValue → M unit :=
  mutateAsync
    (fun values =>
       tryCatch (updateSettings env values)
                (fun e => throw (newError (message e))))
    (toast {| title := "ai provider info updated";
              description := None; variant := None |})
    updateSettingsAsync_onError.

Definition credentialValidation_onError (e : Thrown) : M unit :=
  toast {| title := "credential validation failed!";
           description :=
             Some (if truthyMessage (message e)
                   then default "" (message e)
                   else "please try again.");
           variant := Some "destructive" |}.

Definition credentialValidation (env : Collaborators) (aiProvider : AvailableAiProviders)
    : gmap string JsValue → M unit :=
  mutateAsync
    (fun values =>
       tryCatch
         (match AiProviders_credentialValidation env aiProvider with
          | Some validate =>
              emit (EvCredentialValidation aiProvider values);;
              match validate values with
              | Some e => throw e
              | None => mret tt
              end
          | None => mret tt
          end)
         (fun e => throw (newError (message e))))
    (toast {| title := "credential validation successful";
              description := None; variant := None |})
    credentialValidation_onError.

(** [showLoginStep] is absent from the second object literal: [None] is
    the undefined property. *)
Record Visibility := {
  showForm : bool;
  showLoginStep : option bool
}.

(** [user] is [None] when the session hook has no user. *)
Definition componentsVisibility (aiProvider : AvailableAiProviders)
    (user : option (gmap string JsValue)) : Visibility :=
  if bool_decide (aiProvider = SCREENPIPE_CLOUD) && negb (bool_decide (is_Some user))
  then {| showForm := false; showLoginStep := Some true |}
  else {| showForm := true; showLoginStep := None |}.

Definition submitChanges (env : Collaborators) (aiProvider : AvailableAiProviders)
    (values : gmap string JsValue) : M unit :=
  if bool_decide (aiProvider ≠ EMBEDDED) then
    credentialValidation env aiProvider values;;
    updateSettingsAsync env (<[ "aiProviderType" := VProvider aiProvider ]> values)
  else
    updateSettingsAsync env {[ "embeddedLLM" := VObject values ]}.

(** The result of the setup-form query; [None] for [data] is the query
    that has not delivered yet. *)
Record SetupFormData := {
  setupForm : option FormSchema;
  defaultValues : gmap string JsValue
}.

Record FormProps := {
  isDirty : bool;
  form_defaultValues : gmap string JsValue;
  isLoading : bool;
  onSubmit : gmap string JsValue → M unit;
  onReset : M unit;
  form_key : AvailableAiProviders;
  form : FormSchema
}.

(** The fragment the component returns: the login step, given by the
    [onClick] of its button, and the form, given by its props. *)
Record Rendered := {
  loginStep : option (M unit);
  setupFormElement : option FormProps
}.

Definition render (env : Collaborators) (aiProvider : AvailableAiProviders)
    (user : option (gmap string JsValue)) (settings : Settings)
    (data : option SetupFormData)
    (updateSettingsAsyncPending credentialValidationPending : bool) : Rendered :=
  let visibility := componentsVisibility aiProvider user in
  {| loginStep :=
       if default false (showLoginStep visibility)
       then Some (emit (EvOpenUrl "https://screenpi.pe/login"))
       else None;
     setupFormElement :=
       match data with
       | Some d =>
           match setupForm d with
           | Some schema =>
               if showForm visibility then
                 Some {| isDirty := negb (bool_decide (aiProvider = aiProviderType settings));
                         form_defaultValues := defaultValues d;
                         isLoading := updateSettingsAsyncPending || credentialValidationPending;
                         onSubmit := submitChanges env aiProvider;
                         onReset := emit (EvSetAiProvider (aiProviderType settings));
                         form_key := aiProvider;
                         form := schema |}
               else None
           | None => None
           end
       | None => None
       end |}.

End RegularProviderSetupForm.

(** ** Custom provider setup form (providers/custom/setup-form.ts) *)

Module CustomSetupForm.

Definition aiUrl : FieldSchema :=
  {| key := "aiUrl";
     field_title := "endpoint url";
     placeholder := None;
     validationMeta :=
       {| errorMessage := Some "this field is mandatory";
          min := Some 1; max := Some 50; optional := false |};
     typeMeta := {| isRegular := true; type := STRING; options := None |} |}.

Definition aiModel : FieldSchema :=
  {| key := "aiModel";
     field_title := "ai model";
     placeholder := Some "type model name";
     validationMeta :=
       {| errorMessage := None; min := None; max := None; optional := false |};
     typeMeta :=
       {| isRegular := false; type := SELECT_CREATEABLE; options := Some [] |} |}.

Definition customPrompt : FieldSchema :=
  {| key := "customPrompt";
     field_title := "prompt";
     placeholder := Some "enter your custom prompt here";
     validationMeta :=
       {| errorMessage := Some "you need to provide a custom prompt";
          min := None; max := None; optional := false |};
     typeMeta := {| isRegular := true; type := TEXTAREA; options := None |} |}.

Definition aiMaxContextChars : FieldSchema :=
  {| key := "aiMaxContextChars";
     field_title := "max content";
     placeholder := None;
     validationMeta :=
       {| errorMessage := Some "you need to provide a custom prompt";
          min := None; max := None; optional := false |};
     typeMeta := {| isRegular := true; type := SLIDER; options := None |} |}.

Definition fields : list FieldSchema :=
  [ aiUrl; aiModel; customPrompt; aiMaxContextChars ].

Definition CustomSetupForm : FormSchema :=
  {| form_title := "configuration";
     form_fields := fields;
     buttonText := "submit changes" |}.

End CustomSetupForm.

(** The other custom-provider form: the same four fields under other keys,
    with a closed list of models. *)
Module CustomProviderSetup.

Definition endpointUrl : FieldSchema :=
  {| key := "endpointUrl";
     field_title := "endpoint url";
     placeholder := None;
     validationMeta :=
       {| errorMessage := Some "this field is mandatory";
          min := Some 1; max := Some 50; optional := false |};
     typeMeta := {| isRegular := true; type := STRING; options := None |} |}.

Definition aiModel : FieldSchema :=
  {| key := "aiModel";
     field_title := "ai model";
     placeholder := None;
     validationMeta :=
       {| errorMessage := Some "hey"; min := None; max := None; optional := false |};
     typeMeta :=
       {| isRegular := false; type := SELECT;
          options :=
            Some [ {| option_value := "gpt-4o"; option_label := "gpt-4o" |};
                   {| option_value := "gpt-4o-mini"; option_label := "gpt-4o-mini" |};
                   {| option_value := "o1-mini"; option_label := "o1-mini" |};
                   {| option_value := "o1"; option_label := "o1" |} ] |} |}.

Definition prompt : FieldSchema :=
  {| key := "prompt";
     field_title := "prompt";
     placeholder := None;
     validationMeta :=
       {| errorMessage := Some "you need to provide a custom prompt";
          min := None; max := None; optional := false |};
     typeMeta := {| isRegular := true; type := TEXTAREA; options := None |} |}.

Definition maxContent : FieldSchema :=
  {| key := "maxContent";
     field_title := "max content";
     placeholder := None;
     validationMeta :=
       {| errorMessage := Some "you need to provide a custom prompt";
          min := None; max := None; optional := false |};
     typeMeta := {| isRegular := true; type := SLIDER; options := None |} |}.

Definition fields : list FieldSchema :=
  [ endpointUrl; aiModel; prompt; maxContent ].

Definition CustomSetupForm : FormSchema :=
  {| form_title := "custom provider setup";
     form_fields := fields;
     buttonText := "submit changes" |}.

End CustomProviderSetup.

(** ** Validators generated from field descriptors *)

(** Modelled from the spec: [generateFormSchema] (form/utils/zod-schema-generator)
    is called by the form component but is not among the sources.  The spec
    gives the validation as required/optional and min/max length, and has a
    required field reject empty input: an absent value passes exactly when
    the field is optional; a string passes when it is not the empty string
    of a required field and its length is within the bounds the descriptor
    sets; any other present value passes.  The result is [None] on success
    and the descriptor's error message (or a default one) otherwise. *)
Definition fieldValidator (f : FieldSchema) (input : JsValue) : option string :=
  let meta := validationMeta f in
  let failure := Some (default "invalid input" (errorMessage meta)) in
  match input with
  | VUndefined => if optional meta then None else failure
  | VString s =>
      if negb (optional meta) && String.eqb s "" then failure
      else if from_option (fun lo => (lo <=? String.length s)%nat) true (min meta)
              && from_option (fun hi => (String.length s <=? hi)%nat) true (max meta)
      then None
      else failure
  | _ => None
  end.

(** Modelled from the spec: the generated schema checks each field of the
    descriptor list against the submitted object and collects the failures
    by key. *)
Definition generateFormSchema (fs : list FieldSchema) (values : gmap string JsValue)
    : list (string * string) :=
  omap (fun f =>
          match fieldValidator f (default VUndefined (values !! key f)) with
          | Some msg => Some (key f, msg)
          | None => None
          end) fs.

Definition accepts (fs : list FieldSchema) (values : gmap string JsValue) : bool :=
  bool_decide (generateFormSchema fs values = []).

(** ** Command-line error helpers: [handleError] and [ERRORS] *)

Module CliErrors.

(** The value handed to [handleError], by the tests the function makes on
    it: a string, a [z.ZodError] with the entries of
    [error.flatten().fieldErrors], another [Error], or anything else. *)
Inductive ErrorValue :=
  | ErrString (s : string)
  | ErrZod (zodMessage : string) (fieldErrors : list (string * list string))
  | ErrError (errorMessage : string)
  | ErrOther.

(** A string array inside a template literal: the elements joined by commas. *)
Fixpoint joinComma (l : list string) : string :=
  match l with
  | [] => ""
  | [x] => x
  | x :: rest => x ++ "," ++ joinComma rest
  end.

(** [process.exit(1)] does not return: each branch ends the list of calls.
    [highlighter_info] is the logger module's [highlighter.info]. *)
Definition handleError (highlighter_info : string → string) (error : ErrorValue)
    : list Event :=
  [ EvLoggerError "Something went wrong. Please check the error below for more details.";
    EvLoggerError "If the problem persists, please open an issue on GitHub.";
    EvLoggerError "" ] ++
  match error with
  | ErrString s =>
      [ EvLoggerError s; EvLoggerBreak; EvProcessExit 1 ]
  | ErrZod _ fieldErrors =>
      EvLoggerError "Validation failed:" ::
      map (fun '(k, v) =>
             EvLoggerError ("- " ++ highlighter_info k ++ ": " ++ joinComma v))
          fieldErrors ++
      [ EvLoggerBreak; EvProcessExit 1 ]
  | ErrError m =>
      [ EvLoggerError m; EvLoggerBreak; EvProcessExit 1 ]
  | ErrOther =>
      [ EvLoggerBreak; EvProcessExit 1 ]
  end.

Definition ERRORS : list (string * string) :=
  [ ("MISSING_DIR_OR_EMPTY_PIPE", "1");
    ("EXISTING_CONFIG", "2");
    ("MISSING_CONFIG", "3");
    ("FAILED_CONFIG_READ", "4");
    ("COMPONENT_NOT_FOUND", "5");
    ("BUILD_MISSING_REGISTRY_FILE", "6") ].

End CliErrors.

(** ** Application providers: the query cache's [onError] *)

Module Providers.

(** [query.meta?.errorMessage] and [error.message] inside a template
    literal: an undefined one prints as the word undefined. *)
Definition queryCache_onError (errorMessage : option string) (error : Thrown)
    : list Event :=
  [ EvConsoleError (default "undefined" errorMessage ++ " "
                    ++ default "undefined" (message error)) ].

End Providers.

(** ** Onboarding context *)

Module Onboarding.

Section Context.

(** [SlideKey] comes from the flow module and [App] is the state that
    the callbacks of the three onboarding hooks act on; neither is
    among the sources. *)
Variables SlideKey App : Type.

Record OnboardingContextType := {
  showOnboarding : bool;
  selectedOptions : list string;
  selectedPersonalization : option string;
  selectedPreference : option string;
  setSelectedOptions : (list string + (list string → list string)) → App → App;
  setSelectedPersonalization : (option string + (option string → option string)) → App → App;
  setSelectedPreference : (option string + (option string → option string)) → App → App;
  setShowOnboardingToFalse : App → App;
  setShowOnboardingToTrue : App → App;
  currentSlide : SlideKey;
  error : option string;
  handleNextSlide : App → App;
  handlePrevSlide : App → App;
  skipOnboarding : App → App;
  completeOnboarding : App → App;
  handleEnd : App → App;
  setRestartPending : App → App
}.

(** What the three hooks return to the provider. *)
Record UserInputHook := {
  ui_selectedOptions : list string;
  ui_setSelectedOptions : (list string + (list string → list string)) → App → App;
  ui_selectedPersonalization : option string;
  ui_setSelectedPersonalization : (option string + (option string → option string)) → App → App;
  ui_selectedPreference : option string;
  ui_setSelectedPreference : (option string + (option string → option string)) → App → App
}.

Record VisibilityHook := {
  vis_showOnboarding : bool;
  vis_setShowOnboardingToFalse : App → App;
  vis_setShowOnboardingToTrue : App → App;
  vis_skipOnboarding : App → App;
  vis_completeOnboarding : App → App;
  vis_handleEnd : App → App;
  vis_restartPending : bool
}.

Record FlowHook := {
  flow_currentSlide : SlideKey;
  flow_error : option string;
  flow_handleNextSlide : App → App;
  flow_handlePrevSlide : App → App;
  flow_setRestartPending : App → App
}.

(** [createContext<OnboardingContextType | undefined>(undefined)]. *)
Definition OnboardingContext_default : option OnboardingContextType := None.

(** The [value] that [OnboardingProvider] gives to its children. *)
Definition OnboardingProvider (ui : UserInputHook) (vis : VisibilityHook)
    (flow : FlowHook) : OnboardingContextType :=
  {| showOnboarding := vis_showOnboarding vis;
     selectedOptions := ui_selectedOptions ui;
     selectedPersonalization := ui_selectedPersonalization ui;
     selectedPreference := ui_selectedPreference ui;
     setSelectedOptions := ui_setSelectedOptions ui;
     setSelectedPersonalization := ui_setSelectedPersonalization ui;
     setSelectedPreference := ui_setSelectedPreference ui;
     setShowOnboardingToFalse := vis_setShowOnboardingToFalse vis;
     setShowOnboardingToTrue := vis_setShowOnboardingToTrue vis;
     currentSlide := flow_currentSlide flow;
     error := flow_error flow;
     handleNextSlide := flow_handleNextSlide flow;
     handlePrevSlide := flow_handlePrevSlide flow;
     skipOnboarding := vis_skipOnboarding vis;
     completeOnboarding := vis_completeOnboarding vis;
     handleEnd := vis_handleEnd vis;
     setRestartPending := flow_setRestartPending flow |}.

(** The components above the caller of the hook, nearest first: an
    [OnboardingProvider] with the results of its hooks, or any other
    component.  The context object is not exported, so no other
    provider of it exists. *)
Inductive Ancestor :=
  | ProviderNode (ui : UserInputHook) (vis : VisibilityHook) (flow : FlowHook)
  | OtherNode.

(** [useContext(OnboardingContext)]: the value of the nearest provider,
    the default without one. *)
Fixpoint useContext (ancestors : list Ancestor) : option OnboardingContextType :=
  match ancestors with
  | [] => OnboardingContext_default
  | ProviderNode ui vis flow :: _ => Some (OnboardingProvider ui vis flow)
  | OtherNode :: rest => useContext rest
  end.

Definition useOnboarding (ancestors : list Ancestor) : Thrown + OnboardingContextType :=
  match useContext ancestors with
  | None => inl (newError (Some "useOnboarding must be used within an OnboardingProvider"))
  | Some context => inr context
  end.

Definition isProvider (a : Ancestor) : bool :=
  match a with
  | ProviderNode _ _ _ => true
  | OtherNode => false
  end.

(** Whether the caller is rendered inside an [OnboardingProvider]. *)
Definition insideProvider (ancestors : list Ancestor) : bool :=
  existsb isProvider ancestors.

End Context.

End Onboarding.

Arguments Onboarding.useContext {SlideKey App}.
Arguments Onboarding.useOnboarding {SlideKey App}.
Arguments Onboarding.insideProvider {SlideKey App}.
Arguments Onboarding.isProvider {SlideKey App}.
Arguments Onboarding.OtherNode {SlideKey App}.
Arguments Onboarding.ProviderNode {SlideKey App}.
Arguments Onboarding.OnboardingProvider {SlideKey App}.

(** ** The error-handling paths of the sources *)

Inductive ErrorPath :=
  | Path_RegularForm_updateSettingsAsync
  | Path_RegularForm_credentialValidation
  | Path_Sidecar_updateSettingsAsync
  | Path_EmbeddedForm_updateSettingsAsync
  | Path_QueryCache
  | Path_handleError.

Definition emitAll (evs : list Event) : M unit :=
  fun w => (inr tt, {| store := store w; log := log w ++ evs |}).

(** The [message] property that a handler of the user interface reads on a
    value of [CliErrors.ErrorValue]: a string has none. *)
Definition thrownOf (e : CliErrors.ErrorValue) : Thrown :=
  match e with
  | CliErrors.ErrString _ => {| message := None |}
  | CliErrors.ErrZod m _ => {| message := Some m |}
  | CliErrors.ErrError m => {| message := Some m |}
  | CliErrors.ErrOther => {| message := None |}
  end.

Definition errorPathHandler (highlighter_info : string → string) (path : ErrorPath)
    (e : CliErrors.ErrorValue) : M unit :=
  match path with
  | Path_RegularForm_updateSettingsAsync =>
      RegularProviderSetupForm.updateSettingsAsync_onError (thrownOf e)
  | Path_RegularForm_credentialValidation =>
      RegularProviderSetupForm.credentialValidation_onError (thrownOf e)
  | Path_Sidecar_updateSettingsAsync =>
      SidecarController.updateSettingsAsync_onError (thrownOf e)
  | Path_EmbeddedForm_updateSettingsAsync =>
      EmbeddedSetupForm.updateSettingsAsync_onError (thrownOf e)
  | Path_QueryCache =>
      emitAll (Providers.queryCache_onError None (thrownOf e))
  | Path_handleError =>
      emitAll (CliErrors.handleError highlighter_info e)
  end.

(** The calls that a handler adds to the log of a world. *)
Definition added (h : M unit) (w : World) : list Event :=
  drop (List.length (log w)) (log (h w).2).

Definition isToast (e : Event) : bool :=
  match e with
  | EvToast _ => true
  | _ => false
  end.

Definition isLoggerError (e : Event) : bool :=
  match e with
  | EvLoggerError _ => true
  | _ => false
  end.

Definition isUpdateSettings (e : Event) : bool :=
  match e with
  | EvUpdateSettings _ => true
  | _ => false
  end.

(** A handler that does nothing beyond showing notifications. *)
Definition onlyNotifies (h : M unit) : Prop :=
  ∀ w, forallb isToast (added h w) = true ∧ store (h w).2 = store w.

(** A table that maps named conditions to pairwise distinct codes. *)
Definition isErrorCodeMapping (t : list (string * string)) : Prop :=
  t ≠ [] ∧ NoDup t.*1 ∧ NoDup t.*2.

(** The tables of named constants that the sources define. *)
Definition sourceErrorTables : list (list (string * string)) :=
  [ CliErrors.ERRORS ].

(** The result of a handler and the world it leaves. *)
Definition outcome {A} (h : M A) (w : World) : Thrown + A := (h w).1.

Definition after {A} (h : M A) (w : World) : World := (h w).2.

Definition noWrite (evs : list Event) : bool :=
  forallb (fun e => negb (isUpdateSettings e)) evs.

(** The description that a failure notification is to carry: the message of
    the error when it has a non-empty one, the retry text otherwise. *)
Definition failureDescription (e : Thrown) : string :=
  match message e with
  | Some m => if decide (m = "") then "please try again." else m
  | None => "please try again."
  end.

Definition failureToast (title : string) (e : Thrown) : Event :=
  EvToast {| title := title;
             description := Some (failureDescription e);
             variant := Some "destructive" |}.

(** The record that a submission of the port form is to write. *)
Definition portFormRecord (parseInt : string → Z → JsNumber) (settings : Settings)
    (portInput : string) : gmap string JsValue :=
  {[ "port" := VNumber (parseInt portInput 10%Z);
     "model" := VString (model (embeddedLLM settings));
     "enabled" := VBool true ]}.

(** ** Sample inputs *)

Module Samples.

Definition settings0 : Settings :=
  {| aiProviderType := EMBEDDED;
     embeddedLLM := {| port := Int 11434; model := "llama3.2"; enabled := true |};
     otherSettings := ∅ |}.

Definition settings1 : Settings :=
  {| aiProviderType := SCREENPIPE_CLOUD;
     embeddedLLM := {| port := Int 9000; model := "phi4"; enabled := false |};
     otherSettings := {[ "userId" := VString "u1" ]} |}.

Definition clean : EmbeddedControlCenter.Inputs :=
  {| EmbeddedControlCenter.settings := settings0;
     EmbeddedControlCenter.sidecarStatus := SidecarState_INACTIVE;
     EmbeddedControlCenter.modelStatus := ModelState_INACTIVE;
     EmbeddedControlCenter.portFormIsDirty := false |}.

Definition dirty : EmbeddedControlCenter.Inputs :=
  {| EmbeddedControlCenter.settings := settings0;
     EmbeddedControlCenter.sidecarStatus := SidecarState_INACTIVE;
     EmbeddedControlCenter.modelStatus := ModelState_INACTIVE;
     EmbeddedControlCenter.portFormIsDirty := true |}.

Definition running : EmbeddedControlCenter.Inputs :=
  {| EmbeddedControlCenter.settings := settings0;
     EmbeddedControlCenter.sidecarStatus := SidecarState_ACTIVE;
     EmbeddedControlCenter.modelStatus := ModelState_RUNNING;
     EmbeddedControlCenter.portFormIsDirty := false |}.

Definition runningOtherSettings : EmbeddedControlCenter.Inputs :=
  {| EmbeddedControlCenter.settings := settings1;
     EmbeddedControlCenter.sidecarStatus := SidecarState_ACTIVE;
     EmbeddedControlCenter.modelStatus := ModelState_RUNNING;
     EmbeddedControlCenter.portFormIsDirty := true |}.

Definition world0 : World := {| store := settings0; log := [] |}.

(** [parseInt] for the sample runs: its value in base 10 on the two port
    strings that the samples submit.  The properties hold for every function
    in its place. *)
Definition parseIntOfSamples (input : string) (radix : Z) : JsNumber :=
  if decide (input = "8080") then Int 8080
  else if decide (input = "11434") then Int 11434
  else NaN.

Definition openaiValidator (values : gmap string JsValue) : option Thrown :=
  match values !! "openaiApiKey" with
  | Some (VString "sk-valid") => None
  | _ => Some {| message := Some "invalid api key" |}
  end.

(** A store that merges the written keys into [otherSettings], and a
    table in which the provider "openai" validates its key and no other
    provider defines a validator. *)
Definition mergingStore : Collaborators :=
  {| updateSettings_store := fun values st =>
       inr {| aiProviderType := aiProviderType st;
              embeddedLLM := embeddedLLM st;
              otherSettings := values ∪ otherSettings st |};
     AiProviders_credentialValidation := fun p =>
       match p with
       | OTHER_PROVIDER "openai" => Some openaiValidator
       | _ => None
       end |}.

(** A store whose write throws, with the same table. *)
Definition failingStore : Collaborators :=
  {| updateSettings_store := fun _ _ => inl {| message := Some "disk full" |};
     AiProviders_credentialValidation :=
       AiProviders_credentialValidation mergingStore |}.

Definition badKey : gmap string JsValue := {[ "openaiApiKey" := VString "nope" ]}.

Definition goodKey : gmap string JsValue := {[ "openaiApiKey" := VString "sk-valid" ]}.

Definition longUrl : string :=
  "https://example.org/v1/chat/completions/0123456789abc".

End Samples.

(** ** The model select of the model controller *)

Module ModelSelect.

(** [enabled] of the query for the models of the sidecar. *)
Definition modelsQueryEnabled (sidecarStatus : SidecarState) : bool :=
  bool_decide (sidecarStatus = SidecarState_ACTIVE).

(** [availableModels?.map(...)]: [None] is the undefined data of a query
    that has not delivered. *)
Definition generatedOptions (availableModels : option (list string))
    : option (list SelectOption) :=
  (fun models =>
     map (fun option => {| option_value := option; option_label := option |}) models)
  <$> availableModels.

(** [onChange]: what [field.onChange] receives for the chosen option, [None]
    for the undefined of a cleared select. *)
Definition onChange (e : option SelectOption) : option string :=
  option_value <$> e.

(** [value]: the option shown for the field's value; an undefined or empty
    value shows none. *)
Definition value (fieldValue : option string) : option SelectOption :=
  match fieldValue with
  | Some v =>
      if negb (String.eqb v "")
      then Some {| option_value := v; option_label := v |}
      else None
  | None => None
  end.

End ModelSelect.

(** ** The select wrapper (components/select) *)

Module Select.

(** A prop of the wrapper: a plain value, or a function, element or object
    that the wrapper hands on without looking into it. *)
Inductive PropValue :=
  | PropJs (v : JsValue)
  | PropOpaque (name : string).

Definition truthy (p : option PropValue) : bool :=
  match p with
  | None => false
  | Some (PropOpaque _) => true
  | Some (PropJs v) =>
      match v with
      | VUndefined => false
      | VString s => negb (String.eqb s "")
      | VNumber NaN => false
      | VNumber (Int z) => negb (z =? 0)%Z
      | VNumber NegativeZero => false
      | VNumber (Infinity _) => true
      | VBool b => b
      | VProvider _ => true
      | VObject _ => true
      end
  end.

Inductive Comp :=
  | CreatableSelect
  | SelectReact.

(** The [control] entry of the special styles. *)
Definition control (css : gmap string JsValue) : gmap string JsValue :=
  <[ "borderStyle" := VString "hidden" ]>
    (<[ "backgroundColor" := VString "hsl(0, 0%, 100%)" ]> css).

(** The element the wrapper returns: the component, the props it receives
    apart from [styles], and the [styles] prop ([None] is undefined). *)
Record Element := {
  comp : Comp;
  elementProps : gmap string PropValue;
  styles : option (gmap string JsValue → gmap string JsValue)
}.

Definition Select (allProps : gmap string PropValue) : Element :=
  let components := allProps !! "components" in
  let isCreateable := allProps !! "isCreateable" in
  let isSpecial := allProps !! "isSpecial" in
  let props := delete "components" (delete "isCreateable" (delete "isSpecial" allProps)) in
  let menuPlacement := default (PropJs (VString "auto")) (props !! "menuPlacement") in
  let restProps := delete "menuPlacement" props in
  {| comp := if truthy isCreateable then CreatableSelect else SelectReact;
     elementProps :=
       delete "styles" (restProps ∪ {[ "isSearchable" := PropJs (VBool true) ]});
     styles := if truthy isSpecial then Some control else None |}.

End Select.

(** ** The form component (form/components/form) *)

Module Form.

(** The component logs to the console besides acting on the world of its
    callbacks. *)
Record FormWorld := {
  host : World;
  consoleLog : list JsValue
}.

Definition FM (A : Type) : Type := FormWorld → (Thrown + A) * FormWorld.

#[global] Instance FM_ret : MRet FM := fun A a fw => (inr a, fw).

#[global] Instance FM_bind : MBind FM := fun A B k m fw =>
  match m fw with
  | (inr a, fw') => k a fw'
  | (inl e, fw') => (inl e, fw')
  end.

Definition liftHost {A} (m : M A) : FM A :=
  fun fw =>
    match m (host fw) with
    | (r, w') => (r, {| host := w'; consoleLog := consoleLog fw |})
    end.

Definition console_log (v : JsValue) : FM unit :=
  fun fw => (inr tt, {| host := host fw; consoleLog := consoleLog fw ++ [v] |}).

(** The handle of the form renderer behind [refForm.current]: [getValues]
    reads the values the form holds at the time of the call. *)
Record FormRendererHandles := {
  getValues : World → gmap string JsValue
}.

Definition handleSubmit (refForm_current : option FormRendererHandles)
    (onCreate : option (gmap string JsValue → M unit))
    (values : gmap string JsValue) : FM unit :=
  match refForm_current with
  | Some current =>
      match onCreate with
      | None => console_log (VObject {[ "values" := VObject values ]})
      | Some create => liftHost (create values)
      end;;
      liftHost (fun w => emit (EvFormReset (Some (getValues current w))) w)
  | None => mret tt
  end.

Definition resetForm (refForm_current : option FormRendererHandles)
    (onReset : option (M unit)) : FM unit :=
  match refForm_current with
  | Some current =>
      liftHost (emit (EvFormReset None));;
      match onReset with
      | Some reset => liftHost reset
      | None => mret tt
      end
  | None => mret tt
  end.

End Form.

(** ** Permission states per device (peripheral-devices/types) *)

Module PermissionsPerDevice.

Definition deviceKeys : list string :=
  [ "screenRecording"; "microphone"; "accessibility" ].

(** [OSPermissionsStatesPerDeviceZodSchema.safeParse]: the input has to be an
    object whose three device keys hold values of the enum; the parsed object
    keeps those three keys and drops every other one.  The enum
    [PermissionStateWithUIRelatedStates] is declared outside the sources:
    [isPermissionState] tells its values. *)
Definition OSPermissionsStatesPerDeviceZodSchema (isPermissionState : JsValue → bool)
    (input : JsValue) : option (gmap string JsValue) :=
  match input with
  | VObject o =>
      if forallb (fun k => from_option isPermissionState false (o !! k)) deviceKeys
      then Some (filter (fun kv => kv.1 ∈ deviceKeys) o)
      else None
  | _ => None
  end.

End PermissionsPerDevice.

(** ** Helpers for reading logs *)

Definition toasts (evs : list Event) : list Toast :=
  omap (fun e => match e with EvToast t => Some t | _ => None end) evs.

Definition isCredentialValidation (e : Event) : bool :=
  match e with
  | EvCredentialValidation _ _ => true
  | _ => false
  end.


Definition isProcessExit (e : Event) : bool :=
  match e with
  | EvProcessExit _ => true
  | _ => false
  end.

(** The props that the select wrapper takes for itself or replaces. *)
Definition consumedProps : list string :=
  [ "components"; "isCreateable"; "isSpecial"; "menuPlacement"; "styles" ].

Module MoreSamples.

Definition isPermissionState (v : JsValue) : bool :=
  match v with
  | VString "granted" => true
  | VString "denied" => true
  | _ => false
  end.

Definition reported : gmap string JsValue :=
  {[ "screenRecording" := VString "granted";
     "microphone" := VString "denied";
     "accessibility" := VString "granted";
     "camera" := VString "granted" ]}.

Definition parsed : gmap string JsValue :=
  {[ "screenRecording" := VString "granted";
     "microphone" := VString "denied";
     "accessibility" := VString "granted" ]}.

End MoreSamples.

(** * Properties *)

(** ** The control buttons *)

Import EmbeddedControlCenter.

Lemma isPlayButtonDisabled_spec (s : SidecarState) (dirty : bool) :
  SidecarController.isPlayButtonDisabled s dirty = true ↔
  s = SidecarState_ACTIVE ∨ s = SidecarState_UNKNOWN ∨ dirty = true.
Proof.
  unfold SidecarController.isPlayButtonDisabled.
  destruct s, dirty; cbn; split; intros H; try done; auto.
  all: destruct H as [H | [H | H]]; done.
Qed.

Lemma isPauseButtonDisabled_spec (s : SidecarState) :
  SidecarController.isPauseButtonDisabled s = true ↔ s ≠ SidecarState_ACTIVE.
Proof.
  unfold SidecarController.isPauseButtonDisabled.
  destruct s; cbn; split; intros H; done.
Qed.

(** C2, as stated, fails: with the sidecar inactive in both renders and the
    same model status, a dirty port form disables the start-sidecar button
    and a clean one leaves it enabled, so the flags are not a function of
    the two statuses alone. *)
Lemma start_sidecar_depends_on_dirty_flag :
  ¬ (∀ (b : ControlButton) (i j : Inputs),
       sidecarStatus i = sidecarStatus j →
       modelStatus i = modelStatus j →
       disabled b i = disabled b j).
Proof.
  intros H.
  specialize (H StartSidecar Samples.clean Samples.dirty eq_refl eq_refl).
  discriminate H.
Qed.

(** C2, amended: the disabled flags of the stop-sidecar, start-model and
    stop-model buttons are functions of the sidecar status and the model
    status alone; the flag of the start-sidecar button is a function of the
    sidecar status and of the dirty flag of the port form, and it is set
    exactly when the status is ACTIVE or UNKNOWN or the form is dirty.  No
    other input of the render (the settings) affects any of the four. *)
Theorem disabled_determined_by_statuses_and_dirty_flag (b : ControlButton) (i j : Inputs) :
  sidecarStatus i = sidecarStatus j →
  modelStatus i = modelStatus j →
  (b = StartSidecar → portFormIsDirty i = portFormIsDirty j) →
  disabled b i = disabled b j ∧
  (disabled StartSidecar i = true ↔
   sidecarStatus i = SidecarState_ACTIVE ∨ sidecarStatus i = SidecarState_UNKNOWN
   ∨ portFormIsDirty i = true).
Proof.
  intros Hs Hm Hd. split.
  - destruct b; cbn; rewrite ?Hs, ?Hm; try reflexivity.
    rewrite Hd; reflexivity.
  - cbn. apply isPlayButtonDisabled_spec.
Qed.

Lemma disabled_determined_by_statuses_and_dirty_flag_witness :
  disabled StopModel Samples.running = disabled StopModel Samples.runningOtherSettings ∧
  (disabled StartSidecar Samples.running = true ↔
   sidecarStatus Samples.running = SidecarState_ACTIVE
   ∨ sidecarStatus Samples.running = SidecarState_UNKNOWN
   ∨ portFormIsDirty Samples.running = true).
Proof.
  apply (disabled_determined_by_statuses_and_dirty_flag StopModel);
    [reflexivity | reflexivity | discriminate].
Defined.

(** C3: the start-model button is enabled exactly when the sidecar is ACTIVE
    and the model is neither RUNNING nor in ERROR; the stop-model button is
    enabled exactly when the sidecar is ACTIVE and the model is RUNNING; the
    model select is disabled exactly when the sidecar is not ACTIVE. *)
Theorem model_panel_is_a_mapping_of_statuses (s : SidecarState) (m : ModelState) :
  (ModelController.playDisabled (ModelController.render s m) = false ↔
   s = SidecarState_ACTIVE ∧ m ≠ ModelState_RUNNING ∧ m ≠ ModelState_ERROR) ∧
  (ModelController.pauseDisabled (ModelController.render s m) = false ↔
   s = SidecarState_ACTIVE ∧ m = ModelState_RUNNING) ∧
  (ModelController.selectIsDisabled (ModelController.render s m) = true ↔
   s ≠ SidecarState_ACTIVE).
Proof.
  destruct s, m; cbn; repeat split; intros; try done.
  all: try (destruct_and?; done).
Qed.

(** C8: for every sidecar status, model status and dirty flag of the port
    form, the sidecar start and stop buttons are never both enabled, and the
    model start and stop buttons are never both enabled. *)
Theorem start_and_stop_never_both_enabled (i : Inputs) :
  ¬ (disabled StartSidecar i = false ∧ disabled StopSidecar i = false) ∧
  ¬ (disabled StartModel i = false ∧ disabled StopModel i = false).
Proof.
  destruct i as [st s m d]; cbn.
  split; intros [H1 H2]; destruct s, m, d; cbn in *; discriminate.
Qed.

(** ** Handlers *)

Ltac run_handler :=
  unfold added, outcome, after,
    SidecarController.handleFormSubmit, SidecarController.updateSettingsAsync,
    SidecarController.updateSettingsAsync_onError,
    EmbeddedSetupForm.submitChanges, EmbeddedSetupForm.updateSettingsAsync,
    EmbeddedSetupForm.updateSettingsAsync_onError,
    RegularProviderSetupForm.submitChanges,
    RegularProviderSetupForm.updateSettingsAsync,
    RegularProviderSetupForm.updateSettingsAsync_onError,
    RegularProviderSetupForm.credentialValidation,
    RegularProviderSetupForm.credentialValidation_onError,
    mutateAsync, tryCatch, updateSettings, toast, emit, emitAll, throw,
    mbind, M_bind, mret, M_ret;
  cbn.

(** Runs of the handlers on the sample inputs. *)

Example submit_with_rejected_key :
  added (RegularProviderSetupForm.submitChanges Samples.mergingStore
           (OTHER_PROVIDER "openai") Samples.badKey) Samples.world0
  = [ EvCredentialValidation (OTHER_PROVIDER "openai") Samples.badKey;
      failureToast "credential validation failed!" {| message := Some "invalid api key" |} ]
  ∧ store (after (RegularProviderSetupForm.submitChanges Samples.mergingStore
                    (OTHER_PROVIDER "openai") Samples.badKey) Samples.world0)
    = Samples.settings0.
Proof. split; reflexivity. Qed.

Example submit_with_accepted_key :
  added (RegularProviderSetupForm.submitChanges Samples.mergingStore
           (OTHER_PROVIDER "openai") Samples.goodKey) Samples.world0
  = [ EvCredentialValidation (OTHER_PROVIDER "openai") Samples.goodKey;
      EvToast {| title := "credential validation successful";
                 description := None; variant := None |};
      EvUpdateSettings (<[ "aiProviderType" := VProvider (OTHER_PROVIDER "openai") ]>
                          Samples.goodKey);
      EvToast {| title := "ai provider info updated";
                 description := None; variant := None |} ].
Proof. reflexivity. Qed.

Example submit_for_provider_without_validator :
  added (RegularProviderSetupForm.submitChanges Samples.mergingStore
           (OTHER_PROVIDER "native-ollama") ∅) Samples.world0
  = [ EvToast {| title := "credential validation successful";
                 description := None; variant := None |};
      EvUpdateSettings {[ "aiProviderType" := VProvider (OTHER_PROVIDER "native-ollama") ]};
      EvToast {| title := "ai provider info updated";
                 description := None; variant := None |} ].
Proof. reflexivity. Qed.

Example submit_port_with_failing_store :
  added (SidecarController.handleFormSubmit Samples.parseIntOfSamples
           Samples.failingStore Samples.settings0 "8080")
        Samples.world0
  = [ EvUpdateSettings {[ "embeddedLLM" := VObject (portFormRecord Samples.parseIntOfSamples Samples.settings0 "8080") ]};
      failureToast "form submission failed!" {| message := Some "disk full" |} ].
Proof. reflexivity. Qed.

Example form_waits_for_the_query :
  RegularProviderSetupForm.setupFormElement
    (RegularProviderSetupForm.render Samples.mergingStore (OTHER_PROVIDER "openai")
       (Some ∅) Samples.settings0 None false false) = None
  ∧ RegularProviderSetupForm.showForm
      (RegularProviderSetupForm.componentsVisibility (OTHER_PROVIDER "openai") (Some ∅))
    = true.
Proof. split; reflexivity. Qed.

Example handleError_on_validation_error :
  CliErrors.handleError id
    (CliErrors.ErrZod "invalid" [ ("name", ["Required"; "Too short"]) ])
  = [ EvLoggerError "Something went wrong. Please check the error below for more details.";
      EvLoggerError "If the problem persists, please open an issue on GitHub.";
      EvLoggerError "";
      EvLoggerError "Validation failed:";
      EvLoggerError "- name: Required,Too short";
      EvLoggerBreak;
      EvProcessExit 1 ].
Proof. reflexivity. Qed.

(** C9: every submission of the sidecar port form, through
    [handleFormSubmit] of the sidecar controller or [submitChanges] of the
    embedded setup form, makes exactly one write to the settings store; the
    written object has the single key embeddedLLM, whose record has the port
    [parseInt(values.port, 10)], for the built-in [parseInt] whatever it
    returns on the entered string, the model of the settings the component
    holds, and enabled set to true, and no other field. *)
Theorem port_form_submission_writes_embeddedLLM
    (parseInt : string → Z → JsNumber)
    (env : Collaborators) (st : Settings) (portInput : string) (w : World) :
  let payload : gmap string JsValue :=
    {[ "embeddedLLM" := VObject (portFormRecord parseInt st portInput) ]} in
  let written :=
    match updateSettings_store env payload (store w) with
    | inr s' => s'
    | inl _ => store w
    end in
  (∃ rest,
     added (SidecarController.handleFormSubmit parseInt env st portInput) w
     = EvUpdateSettings payload :: rest ∧ noWrite rest = true) ∧
  store (after (SidecarController.handleFormSubmit parseInt env st portInput) w) = written ∧
  (∃ rest,
     added (EmbeddedSetupForm.submitChanges parseInt env st portInput) w
     = EvUpdateSettings payload :: rest ∧ noWrite rest = true) ∧
  store (after (EmbeddedSetupForm.submitChanges parseInt env st portInput) w) = written ∧
  dom payload = ({[ "embeddedLLM" ]} : gset string) ∧
  portFormRecord parseInt st portInput !! "port" = Some (VNumber (parseInt portInput 10%Z)) ∧
  portFormRecord parseInt st portInput !! "model" = Some (VString (model (embeddedLLM st))) ∧
  portFormRecord parseInt st portInput !! "enabled" = Some (VBool true) ∧
  dom (portFormRecord parseInt st portInput) = ({[ "port"; "model"; "enabled" ]} : gset string).
Proof.
  cbv zeta.
  assert (Hp : ({[ "embeddedLLM" :=
           VObject
             (<[ "port" := VNumber (parseInt portInput 10%Z) ]>
              (<[ "model" := VString (model (embeddedLLM st)) ]>
               (<[ "enabled" := VBool true ]> ∅))) ]} : gmap string JsValue)
     = {[ "embeddedLLM" := VObject (portFormRecord parseInt st portInput) ]}) by reflexivity.
  split_and!.
  - run_handler. rewrite Hp.
    destruct (updateSettings_store env _ (store w)) as [e|s']; cbn;
      rewrite <- !app_assoc, drop_app_length; cbn; eexists; split; reflexivity.
  - run_handler. rewrite Hp.
    destruct (updateSettings_store env _ (store w)) as [e|s']; reflexivity.
  - run_handler. rewrite Hp.
    destruct (updateSettings_store env _ (store w)) as [e|s']; cbn;
      rewrite <- !app_assoc, drop_app_length; cbn; eexists; split; reflexivity.
  - run_handler. rewrite Hp.
    destruct (updateSettings_store env _ (store w)) as [e|s']; reflexivity.
  - apply dom_singleton_L.
  - unfold portFormRecord. by simplify_map_eq.
  - unfold portFormRecord. by simplify_map_eq.
  - unfold portFormRecord. by simplify_map_eq.
  - unfold portFormRecord. rewrite !dom_insert_L, dom_singleton_L. set_solver.
Qed.

(** C7: each failed mutation on its own shows one destructive notification:
    when the store's write throws, the provider-settings mutation, the
    sidecar-port mutation and the embedded form's mutation each show it, and
    when the provider's validator rejects, the credential-validation
    mutation shows it, whatever the store does; the description is the
    error's message when that is non-empty and the text 'please try again.'
    otherwise. *)
Theorem failed_mutation_shows_destructive_toast
    (env : Collaborators) (p : AvailableAiProviders)
    (values : gmap string JsValue) (w : World) (e : Thrown) :
  (updateSettings_store env values (store w) = inl e →
     added (RegularProviderSetupForm.updateSettingsAsync env values) w
       = [ EvUpdateSettings values; failureToast "ai provider update failed!" e ] ∧
     added (SidecarController.updateSettingsAsync env values) w
       = [ EvUpdateSettings values; failureToast "form submission failed!" e ] ∧
     added (EmbeddedSetupForm.updateSettingsAsync env values) w
       = [ EvUpdateSettings values; failureToast "ai provider update failed!" e ]) ∧
  (∀ validate : gmap string JsValue → option Thrown,
     AiProviders_credentialValidation env p = Some validate →
     validate values = Some e →
     added (RegularProviderSetupForm.credentialValidation env p values) w
       = [ EvCredentialValidation p values;
           failureToast "credential validation failed!" e ]).
Proof.
  unfold failureToast. split.
  - intros Hstore.
    split_and!; run_handler; rewrite Hstore; cbn;
      rewrite <- ?app_assoc, drop_app_length; cbn;
      unfold failureDescription, truthyMessage; cbn;
      destruct (message e) as [[|c m]|]; reflexivity.
  - intros validate Htable Hval.
    run_handler. rewrite Htable. cbn. rewrite Hval. cbn.
    rewrite <- ?app_assoc, drop_app_length. cbn.
    unfold failureDescription, truthyMessage; cbn.
    destruct (message e) as [[|c m]|]; reflexivity.
Qed.

Lemma failed_mutation_shows_destructive_toast_witness :
  (added (RegularProviderSetupForm.updateSettingsAsync Samples.failingStore Samples.badKey)
         Samples.world0
     = [ EvUpdateSettings Samples.badKey;
         failureToast "ai provider update failed!" {| message := Some "disk full" |} ] ∧
   added (SidecarController.updateSettingsAsync Samples.failingStore Samples.badKey)
         Samples.world0
     = [ EvUpdateSettings Samples.badKey;
         failureToast "form submission failed!" {| message := Some "disk full" |} ] ∧
   added (EmbeddedSetupForm.updateSettingsAsync Samples.failingStore Samples.badKey)
         Samples.world0
     = [ EvUpdateSettings Samples.badKey;
         failureToast "ai provider update failed!" {| message := Some "disk full" |} ]) ∧
  added (RegularProviderSetupForm.credentialValidation Samples.mergingStore
           (OTHER_PROVIDER "openai") Samples.badKey) Samples.world0
    = [ EvCredentialValidation (OTHER_PROVIDER "openai") Samples.badKey;
        failureToast "credential validation failed!"
                     {| message := Some "invalid api key" |} ].
Proof.
  split.
  - apply (proj1 (failed_mutation_shows_destructive_toast Samples.failingStore
                    (OTHER_PROVIDER "openai") Samples.badKey Samples.world0
                    {| message := Some "disk full" |})).
    reflexivity.
  - apply (proj2 (failed_mutation_shows_destructive_toast Samples.mergingStore
                    (OTHER_PROVIDER "openai") Samples.badKey Samples.world0
                    {| message := Some "invalid api key" |})
                 Samples.openaiValidator);
      reflexivity.
Defined.

(** C1, as stated, fails: the provider's validator is optional, and for a
    provider whose table entry defines none the submission writes the
    settings without any call to a credential validator before the write. *)
Lemma write_without_validator_call :
  ¬ (∀ (env : Collaborators) (p : AvailableAiProviders)
       (values : gmap string JsValue) (w : World),
       p ≠ EMBEDDED →
       ∀ (pre : list Event) (written : gmap string JsValue) (rest : list Event),
         added (RegularProviderSetupForm.submitChanges env p values) w
           = (pre ++ EvUpdateSettings written :: rest)%list →
         existsb isCredentialValidation pre = true).
Proof.
  intros H.
  specialize (H Samples.mergingStore (OTHER_PROVIDER "native-ollama") ∅ Samples.world0).
  specialize (H ltac:(discriminate)).
  specialize (H [ EvToast {| title := "credential validation successful";
                             description := None; variant := None |} ]
                {[ "aiProviderType" := VProvider (OTHER_PROVIDER "native-ollama") ]}
                [ EvToast {| title := "ai provider info updated";
                             description := None; variant := None |} ]
                eq_refl).
  discriminate H.
Qed.

(** C1, amended: for a selected provider other than EMBEDDED,
    [submitChanges] runs the credential-validation mutation before the write
    to the settings store.  The mutation never writes; it calls the
    provider's external validator, as the first call of the submission, when
    the provider's table entry defines one, and resolves without any such
    call when the entry defines none.  When the validation throws, which is
    exactly when that validator rejects, the submission throws with it, the
    store is left as it was and no write is attempted.  When the validation
    resolves, the next call is the write of the submitted values with
    aiProviderType set to the selected provider, and the store afterwards is
    what the settings store made of that write. *)
Theorem submitChanges_validates_before_writing
    (env : Collaborators) (p : AvailableAiProviders)
    (values : gmap string JsValue) (w : World) :
  p ≠ EMBEDDED →
  let validation := RegularProviderSetupForm.credentialValidation env p values in
  let payload : gmap string JsValue := <[ "aiProviderType" := VProvider p ]> values in
  let submit := RegularProviderSetupForm.submitChanges env p values in
  (* the validation mutation never writes *)
  store (after validation w) = store w ∧
  noWrite (added validation w) = true ∧
  (* a provider that defines a validator has it called first *)
  (∀ validate, AiProviders_credentialValidation env p = Some validate →
     ∃ rest, added submit w = EvCredentialValidation p values :: rest) ∧
  (* a provider that defines none passes the validation without a call *)
  (AiProviders_credentialValidation env p = None →
     outcome validation w = inr tt ∧
     forallb (fun e => negb (isCredentialValidation e)) (added submit w) = true) ∧
  match outcome validation w with
  | inl e =>
      (* validation threw: the submission throws, nothing is written *)
      outcome submit w = inl e ∧
      store (after submit w) = store w ∧
      noWrite (added submit w) = true
  | inr _ =>
      (* validation resolved: the next call is the write *)
      (∃ rest,
         added submit w = (added validation w ++ EvUpdateSettings payload :: rest)%list
         ∧ noWrite rest = true) ∧
      payload !! "aiProviderType" = Some (VProvider p) ∧
      (∀ k, k ≠ "aiProviderType" → payload !! k = values !! k) ∧
      store (after submit w)
        = match updateSettings_store env payload (store w) with
          | inr s' => s'
          | inl _ => store w
          end
  end ∧
  (* validation throws exactly when the provider's validator rejects *)
  (is_Some (match outcome validation w with inl e => Some e | inr _ => None end) ↔
   ∃ validate e, AiProviders_credentialValidation env p = Some validate
                 ∧ validate values = Some e).
Proof.
  intros Hp. cbv zeta.
  unfold RegularProviderSetupForm.submitChanges.
  rewrite bool_decide_true by done.
  destruct (AiProviders_credentialValidation env p) as [validate|] eqn:Htable.
  - destruct (validate values) as [e|] eqn:Hval.
    + split_and!.
      * run_handler. rewrite Htable. cbn. rewrite Hval. reflexivity.
      * run_handler. rewrite Htable. cbn. rewrite Hval. cbn.
        rewrite <- ?app_assoc, drop_app_length. reflexivity.
      * intros v [= <-]. run_handler. rewrite Htable; cbn; rewrite Hval; cbn.
        rewrite <- ?app_assoc, drop_app_length. eexists; reflexivity.
      * intros [=].
      * run_handler. rewrite Htable; cbn; rewrite Hval; cbn.
        rewrite <- ?app_assoc, drop_app_length. split_and!; reflexivity.
      * run_handler. rewrite Htable; cbn; rewrite Hval; cbn.
        split; [intros _; eauto | intros _; eexists; reflexivity].
    + split_and!.
      * run_handler. rewrite Htable. cbn. rewrite Hval. reflexivity.
      * run_handler. rewrite Htable. cbn. rewrite Hval. cbn.
        rewrite <- ?app_assoc, drop_app_length. reflexivity.
      * intros v [= <-]. run_handler. rewrite Htable; cbn; rewrite Hval; cbn.
        destruct (updateSettings_store env _ (store w)); cbn;
        rewrite <- ?app_assoc, drop_app_length; eexists; reflexivity.
      * intros [=].
      * run_handler. rewrite Htable; cbn; rewrite Hval; cbn.
        split_and!.
        -- destruct (updateSettings_store env _ (store w)); cbn;
           rewrite <- ?app_assoc, !drop_app_length; cbn; eexists; split; reflexivity.
        -- apply lookup_insert_eq.
        -- intros k Hk. apply lookup_insert_ne. done.
        -- destruct (updateSettings_store env _ (store w)); reflexivity.
      * run_handler. rewrite Htable; cbn; rewrite Hval; cbn.
        split; [intros [? [=]] | intros (v & e & [= <-] & He); congruence].
  - split_and!.
    + run_handler. rewrite Htable. reflexivity.
    + run_handler. rewrite Htable. cbn.
      rewrite <- ?app_assoc, drop_app_length. reflexivity.
    + intros v [=].
    + intros _. split.
      * run_handler. rewrite Htable. reflexivity.
      * run_handler. rewrite Htable. cbn.
        destruct (updateSettings_store env _ (store w)); cbn;
          rewrite <- ?app_assoc, drop_app_length; reflexivity.
    + run_handler. rewrite Htable; cbn.
      split_and!.
      * destruct (updateSettings_store env _ (store w)); cbn;
        rewrite <- ?app_assoc, !drop_app_length; cbn; eexists; split; reflexivity.
      * apply lookup_insert_eq.
      * intros k Hk. apply lookup_insert_ne. done.
      * destruct (updateSettings_store env _ (store w)); reflexivity.
    + run_handler. rewrite Htable; cbn.
      split; [intros [? [=]] | intros (v & e & [=] & He)].
Qed.

Lemma submitChanges_validates_before_writing_witness :
  OTHER_PROVIDER "openai" ≠ EMBEDDED ∧
  store (after (RegularProviderSetupForm.credentialValidation Samples.mergingStore
                  (OTHER_PROVIDER "openai") Samples.badKey) Samples.world0)
    = store Samples.world0 ∧
  noWrite (added (RegularProviderSetupForm.credentialValidation Samples.mergingStore
                    (OTHER_PROVIDER "openai") Samples.badKey) Samples.world0) = true ∧
  (∃ rest,
     added (RegularProviderSetupForm.submitChanges Samples.mergingStore
              (OTHER_PROVIDER "openai") Samples.badKey) Samples.world0
     = EvCredentialValidation (OTHER_PROVIDER "openai") Samples.badKey :: rest) ∧
  forallb (fun e => negb (isCredentialValidation e))
    (added (RegularProviderSetupForm.submitChanges Samples.mergingStore
              (OTHER_PROVIDER "native-ollama") ∅) Samples.world0) = true.
Proof.
  split; [discriminate|].
  destruct (submitChanges_validates_before_writing Samples.mergingStore
              (OTHER_PROVIDER "openai") Samples.badKey Samples.world0)
    as (H1 & H2 & H3 & _); [discriminate|].
  destruct (submitChanges_validates_before_writing Samples.mergingStore
              (OTHER_PROVIDER "native-ollama") ∅ Samples.world0)
    as (_ & _ & _ & H4 & _); [discriminate|].
  split_and!; [exact H1 | exact H2 | exact (H3 _ eq_refl) | exact (proj2 (H4 eq_refl))].
Defined.

(** ** Visibility of the setup form and the login step *)

(** C5: for every selected provider and user session, the visibility flags
    hide the form and show the login step exactly when the provider is
    SCREENPIPE_CLOUD and there is no user; in every other case the form is
    flagged shown and no login step appears.  The rendered login step is
    present in exactly that case and its button opens the login URL through
    the shell; the form element is rendered under the shown flag as soon as
    the setup-form query has delivered a form. *)
Theorem login_step_exactly_for_cloud_without_user
    (env : Collaborators) (p : AvailableAiProviders)
    (user : option (gmap string JsValue)) (st : Settings)
    (data : option RegularProviderSetupForm.SetupFormData) (pending1 pending2 : bool) :
  let v := RegularProviderSetupForm.componentsVisibility p user in
  let r := RegularProviderSetupForm.render env p user st data pending1 pending2 in
  ((RegularProviderSetupForm.showForm v = false
    ∧ RegularProviderSetupForm.showLoginStep v = Some true)
   ↔ (p = SCREENPIPE_CLOUD ∧ user = None)) ∧
  ((RegularProviderSetupForm.showForm v = true
    ∧ RegularProviderSetupForm.showLoginStep v = None)
   ↔ ¬ (p = SCREENPIPE_CLOUD ∧ user = None)) ∧
  ((RegularProviderSetupForm.setupFormElement r = None
    ∧ is_Some (RegularProviderSetupForm.loginStep r))
   ↔ (p = SCREENPIPE_CLOUD ∧ user = None)) ∧
  RegularProviderSetupForm.loginStep r
    = (if decide (p = SCREENPIPE_CLOUD ∧ user = None)
       then Some (emit (EvOpenUrl "https://screenpi.pe/login"))
       else None) ∧
  (∀ w, added (emit (EvOpenUrl "https://screenpi.pe/login")) w
        = [ EvOpenUrl "https://screenpi.pe/login" ]) ∧
  (is_Some (RegularProviderSetupForm.setupFormElement r)
   ↔ is_Some (data ≫= RegularProviderSetupForm.setupForm)
     ∧ ¬ (p = SCREENPIPE_CLOUD ∧ user = None)).
Proof.
  cbv zeta.
  unfold RegularProviderSetupForm.render, RegularProviderSetupForm.componentsVisibility.
  assert (Hcase : bool_decide (p = SCREENPIPE_CLOUD) && negb (bool_decide (is_Some user)) = true
                  ↔ p = SCREENPIPE_CLOUD ∧ user = None).
  { rewrite andb_true_iff, negb_true_iff, bool_decide_eq_true, bool_decide_eq_false.
    rewrite <- eq_None_not_Some. done. }
  assert (Hopen : ∀ w, added (emit (EvOpenUrl "https://screenpi.pe/login")) w
                       = [ EvOpenUrl "https://screenpi.pe/login" ]).
  { intros w. run_handler. apply drop_app_length. }
  destruct (bool_decide (p = SCREENPIPE_CLOUD) && negb (bool_decide (is_Some user))) eqn:E;
    cbn.
  - assert (Hc : p = SCREENPIPE_CLOUD ∧ user = None) by (apply Hcase; done).
    split_and!; [done | | | | exact Hopen | ].
    + split; [intros [? _]; done | done].
    + split; [done | intros _].
      split; [destruct data as [[[schema|] dv]|]; reflexivity | eauto].
    + rewrite decide_True by done. done.
    + destruct data as [[[schema|] dv]|]; cbn;
        split; try (intros [? ?]; done); intros [? ?]; done.
  - assert (Hc : ¬ (p = SCREENPIPE_CLOUD ∧ user = None)).
    { intros H. apply Hcase in H. done. }
    split_and!; [ | done | | | exact Hopen | ].
    + split; [intros [? _]; done | done].
    + split; [intros [_ [? ?]]; done | done].
    + rewrite decide_False by done. done.
    + destruct data as [[[schema|] dv]|]; cbn.
      * split; [done | eauto].
      * split; [intros [? ?]; done | intros [[? ?] _]; done].
      * split; [intros [? ?]; done | intros [[? ?] _]; done].
Qed.

(** ** The custom-provider form schema *)

Lemma generateFormSchema_cons (f : FieldSchema) (fs : list FieldSchema)
    (values : gmap string JsValue) :
  generateFormSchema (f :: fs) values
  = match fieldValidator f (default VUndefined (values !! key f)) with
    | Some msg => (key f, msg) :: generateFormSchema fs values
    | None => generateFormSchema fs values
    end.
Proof.
  unfold generateFormSchema. cbn.
  destruct (fieldValidator f _); reflexivity.
Qed.

(** C6: every field of the custom-provider setup form is declared required,
    and the validator of the endpoint-url field rejects the empty string and
    every string longer than 50 characters (and accepts the lengths from 1
    to 50); the generated form schema reports the field for such input. *)
Theorem custom_form_fields_required_and_url_bounded
    (s : string) (values : gmap string JsValue) :
  Forall (fun f => optional (validationMeta f) = false) CustomSetupForm.fields ∧
  Forall (fun f => optional (validationMeta f) = false) CustomProviderSetup.fields ∧
  is_Some (fieldValidator CustomSetupForm.aiUrl (VString "")) ∧
  is_Some (fieldValidator CustomProviderSetup.endpointUrl (VString "")) ∧
  ((50 < String.length s)%nat →
     is_Some (fieldValidator CustomSetupForm.aiUrl (VString s)) ∧
     is_Some (fieldValidator CustomProviderSetup.endpointUrl (VString s)) ∧
     accepts CustomSetupForm.fields (<[ "aiUrl" := VString s ]> values) = false) ∧
  ((1 ≤ String.length s ≤ 50)%nat →
     fieldValidator CustomSetupForm.aiUrl (VString s) = None ∧
     fieldValidator CustomProviderSetup.endpointUrl (VString s) = None) ∧
  accepts CustomSetupForm.fields (<[ "aiUrl" := VString "" ]> values) = false.
Proof.
  split_and!.
  - repeat constructor.
  - repeat constructor.
  - cbn; eauto.
  - cbn; eauto.
  - intros Hs.
    assert (Hv : ∀ f, validationMeta f = validationMeta CustomSetupForm.aiUrl →
                      fieldValidator f (VString s) = Some "this field is mandatory").
    { intros f Hf. unfold fieldValidator. rewrite Hf. cbn.
      destruct (String.eqb s ""); [reflexivity|].
      destruct (String.length s) as [|n] eqn:En; [lia|]. cbn.
      replace (n <=? 49)%nat with false; [reflexivity|].
      symmetry. apply Nat.leb_gt. lia. }
    split_and!.
    + rewrite Hv by reflexivity. eauto.
    + rewrite Hv by reflexivity. eauto.
    + unfold accepts, CustomSetupForm.fields.
      rewrite generateFormSchema_cons.
      change (key CustomSetupForm.aiUrl) with "aiUrl".
      rewrite lookup_insert_eq.
      change (default VUndefined (Some (VString s))) with (VString s).
      rewrite Hv by reflexivity.
      apply bool_decide_eq_false. discriminate.
  - intros [Hlo Hhi].
    assert (Hv : ∀ f, validationMeta f = validationMeta CustomSetupForm.aiUrl →
                      fieldValidator f (VString s) = None).
    { intros f Hf. unfold fieldValidator. rewrite Hf. cbn.
      destruct (String.eqb_spec s "") as [->|Hne]; [cbn in Hlo; lia|].
      destruct (String.length s) as [|n] eqn:En; [lia|]. cbn.
      replace (n <=? 49)%nat with true; [reflexivity|].
      symmetry. apply Nat.leb_le. lia. }
    split; apply Hv; reflexivity.
  - unfold accepts, CustomSetupForm.fields.
    rewrite generateFormSchema_cons.
    change (key CustomSetupForm.aiUrl) with "aiUrl".
    rewrite lookup_insert_eq.
    apply bool_decide_eq_false. discriminate.
Qed.

Lemma custom_form_fields_required_and_url_bounded_witness :
  is_Some (fieldValidator CustomSetupForm.aiUrl (VString Samples.longUrl)) ∧
  fieldValidator CustomSetupForm.aiUrl (VString "http://localhost:11434/v1") = None.
Proof.
  split.
  - apply (custom_form_fields_required_and_url_bounded Samples.longUrl ∅).
    vm_compute. lia.
  - apply (custom_form_fields_required_and_url_bounded "http://localhost:11434/v1" ∅).
    vm_compute. lia.
Defined.

(** ** Error handling across the sources *)

(** C4, as stated, fails on both counts: [ERRORS] maps six named error
    conditions to pairwise distinct codes, and [handleError] logs and ends
    the process instead of showing a notification. *)
Lemma error_taxonomy_and_exit_exist :
  ¬ (∀ t, t ∈ sourceErrorTables → ¬ isErrorCodeMapping t) ∧
  ¬ (∀ highlighter_info path e, onlyNotifies (errorPathHandler highlighter_info path e)).
Proof.
  split.
  - intros H. apply (H CliErrors.ERRORS).
    + set_solver.
    + split_and!; [done | cbn; by apply (bool_decide_unpack _) ..].
  - intros H.
    destruct (H id Path_handleError (CliErrors.ErrString "boom") Samples.world0) as [Hn _].
    vm_compute in Hn. discriminate Hn.
Qed.

(** C4, amended: the error paths of the user-interface mutations (provider
    settings update, credential validation, sidecar port update, embedded
    form update) do nothing beyond showing one destructive transient
    notification and leave the store as it is; the query cache logs one
    line to the console; the command-line helpers do define [ERRORS], a
    fixed mapping of six named error conditions to pairwise distinct codes,
    "1" to "6", and [handleError], which logs the error and then ends the
    process with exit code 1. *)
Theorem error_paths_of_the_sources
    (highlighter_info : string → string) (path : ErrorPath)
    (e : CliErrors.ErrorValue) (w : World) :
  isErrorCodeMapping CliErrors.ERRORS ∧
  List.length CliErrors.ERRORS = 6 ∧
  CliErrors.ERRORS.*2 = [ "1"; "2"; "3"; "4"; "5"; "6" ] ∧
  (∀ (errorMessage : option string) (error : Thrown),
     ∃ line, Providers.queryCache_onError errorMessage error = [ EvConsoleError line ]) ∧
  match path with
  | Path_RegularForm_updateSettingsAsync =>
      onlyNotifies (errorPathHandler highlighter_info path e) ∧
      added (errorPathHandler highlighter_info path e) w
        = [ failureToast "ai provider update failed!" (thrownOf e) ]
  | Path_RegularForm_credentialValidation =>
      onlyNotifies (errorPathHandler highlighter_info path e) ∧
      added (errorPathHandler highlighter_info path e) w
        = [ failureToast "credential validation failed!" (thrownOf e) ]
  | Path_Sidecar_updateSettingsAsync =>
      onlyNotifies (errorPathHandler highlighter_info path e) ∧
      added (errorPathHandler highlighter_info path e) w
        = [ failureToast "form submission failed!" (thrownOf e) ]
  | Path_EmbeddedForm_updateSettingsAsync =>
      onlyNotifies (errorPathHandler highlighter_info path e) ∧
      added (errorPathHandler highlighter_info path e) w
        = [ failureToast "ai provider update failed!" (thrownOf e) ]
  | Path_QueryCache =>
      ∃ line, added (errorPathHandler highlighter_info path e) w = [ EvConsoleError line ]
  | Path_handleError =>
      ∃ lines,
        added (errorPathHandler highlighter_info path e) w
          = (lines ++ [ EvLoggerBreak; EvProcessExit 1 ])%list
        ∧ forallb isLoggerError lines = true
  end.
Proof.
  assert (Hdesc : ∀ t : Thrown,
    (if truthyMessage (message t) then default "" (message t) else "please try again.")
    = failureDescription t).
  { intros [[[|c m]|]]; reflexivity. }
  split_and!.
  - split_and!; [done | cbn; by apply (bool_decide_unpack _) ..].
  - reflexivity.
  - reflexivity.
  - intros errorMessage error. eexists. reflexivity.
  - destruct path; cbn.
    1-4: split; [intros w'; split; [|reflexivity]|];
         run_handler; rewrite drop_app_length; cbn; unfold failureToast;
         rewrite ?Hdesc; reflexivity.
    + run_handler. rewrite drop_app_length. eauto.
    + run_handler. rewrite drop_app_length.
      destruct e as [s | zm fe | m |]; cbn.
      * by exists [EvLoggerError "Something went wrong. Please check the error below for more details.";
                EvLoggerError "If the problem persists, please open an issue on GitHub.";
                EvLoggerError ""; EvLoggerError s].
      * eexists (_ :: _ :: _ :: _ :: map _ fe). split.
        -- reflexivity.
        -- cbn. induction fe as [|[k v] fe IH]; [reflexivity | cbn; exact IH].
      * by exists [EvLoggerError "Something went wrong. Please check the error below for more details.";
                EvLoggerError "If the problem persists, please open an issue on GitHub.";
                EvLoggerError ""; EvLoggerError m].
      * by exists [EvLoggerError "Something went wrong. Please check the error below for more details.";
                EvLoggerError "If the problem persists, please open an issue on GitHub.";
                EvLoggerError ""].
Qed.

(** ** The onboarding hook *)

(** C10: [useOnboarding] throws exactly when the context value is undefined,
    which is exactly when it is called outside every [OnboardingProvider];
    under a provider it never throws and returns the whole value of the
    nearest provider. *)
Theorem useOnboarding_throws_exactly_outside_provider
    (SlideKey App : Type) (ancestors : list (Onboarding.Ancestor SlideKey App)) :
  (Onboarding.useContext ancestors = None ↔ Onboarding.insideProvider ancestors = false) ∧
  ((∃ e, Onboarding.useOnboarding ancestors = inl e)
   ↔ Onboarding.useContext ancestors = None) ∧
  ((∃ context, Onboarding.useOnboarding ancestors = inr context)
   ↔ Onboarding.insideProvider ancestors = true) ∧
  (∀ (n : nat) (ui : Onboarding.UserInputHook App) (vis : Onboarding.VisibilityHook App)
     (flow : Onboarding.FlowHook SlideKey App)
     (rest : list (Onboarding.Ancestor SlideKey App)),
     Onboarding.useOnboarding
       (replicate n Onboarding.OtherNode ++ Onboarding.ProviderNode ui vis flow :: rest)%list
     = inr (Onboarding.OnboardingProvider ui vis flow)).
Proof.
  assert (Hctx : ∀ anc : list (Onboarding.Ancestor SlideKey App),
            Onboarding.useContext anc = None ↔ Onboarding.insideProvider anc = false).
  { induction anc as [|[ui vis flow|] anc IH]; cbn; [done | done | exact IH]. }
  split_and!.
  - apply Hctx.
  - unfold Onboarding.useOnboarding.
    destruct (Onboarding.useContext ancestors); split; try done; [intros [? ?]; done | eauto].
  - unfold Onboarding.useOnboarding.
    pose proof (Hctx ancestors) as H.
    destruct (Onboarding.useContext ancestors) as [c|].
    + split; [intros _ | eauto].
      destruct (Onboarding.insideProvider ancestors); [done|].
      destruct H as [_ H]. discriminate (H eq_refl).
    + split; [intros [? ?]; done|].
      intros Hin. destruct H as [H _]. rewrite (H eq_refl) in Hin. done.
  - intros n ui vis flow rest. unfold Onboarding.useOnboarding.
    induction n as [|n IH]; cbn; [reflexivity | exact IH].
Qed.

(** * Further properties *)

(** ** The control centre as a whole *)

(** X1: all four control buttons are disabled exactly when the sidecar
    status is UNKNOWN, or the sidecar is not ACTIVE and the port form is
    dirty; in every other state at least one button can be pressed. *)
Theorem all_buttons_disabled_iff (i : Inputs) :
  (∀ b, disabled b i = true) ↔
  sidecarStatus i = SidecarState_UNKNOWN
  ∨ (sidecarStatus i ≠ SidecarState_ACTIVE ∧ portFormIsDirty i = true).
Proof.
  destruct i as [st s m d]; cbn. split.
  - intros H.
    pose proof (H StartSidecar) as H1. pose proof (H StopSidecar) as H2.
    destruct s, d; cbn in *; try discriminate; auto.
    all: right; split; [discriminate | reflexivity].
  - intros [-> | [Hs ->]] b.
    + destruct b, m; reflexivity.
    + destruct b, s, m; try reflexivity; contradiction.
Qed.

(** X2: whenever the start-model or the stop-model button is enabled, the
    sidecar is ACTIVE, so the stop-sidecar button is enabled, the
    start-sidecar button is disabled, the model select is enabled and the
    query for the models runs. *)
Theorem model_buttons_need_active_sidecar (i : Inputs) :
  disabled StartModel i = false ∨ disabled StopModel i = false →
  sidecarStatus i = SidecarState_ACTIVE
  ∧ disabled StopSidecar i = false
  ∧ disabled StartSidecar i = true
  ∧ ModelController.selectDisabled (sidecarStatus i) = false
  ∧ ModelSelect.modelsQueryEnabled (sidecarStatus i) = true.
Proof.
  destruct i as [st s m d]; cbn.
  intros [H | H]; destruct s, m; cbn in *; try discriminate; done.
Qed.

Lemma model_buttons_need_active_sidecar_witness :
  sidecarStatus Samples.running = SidecarState_ACTIVE
  ∧ disabled StopSidecar Samples.running = false
  ∧ disabled StartSidecar Samples.running = true
  ∧ ModelController.selectDisabled (sidecarStatus Samples.running) = false
  ∧ ModelSelect.modelsQueryEnabled (sidecarStatus Samples.running) = true.
Proof.
  apply model_buttons_need_active_sidecar. right. reflexivity.
Defined.

(** X3: the start-model and stop-model buttons are both disabled exactly
    when the sidecar is not ACTIVE or the model is in ERROR: a model in
    ERROR can be neither started nor stopped from the panel. *)
Theorem model_buttons_both_disabled_iff (i : Inputs) :
  (disabled StartModel i = true ∧ disabled StopModel i = true) ↔
  sidecarStatus i ≠ SidecarState_ACTIVE ∨ modelStatus i = ModelState_ERROR.
Proof.
  destruct i as [st s m d]; cbn.
  destruct s, m; cbn; split; try (intros [? ?]; discriminate); intros H.
  all: try (split; reflexivity).
  all: try (left; discriminate).
  all: try (right; reflexivity).
  all: destruct H as [H | H]; [contradiction | discriminate].
Qed.

(** ** The model select *)

(** X4: the models are queried exactly when the model select is enabled;
    without query data there are no options, and with data there is one
    option per model, in the same order, whose value and label are both the
    model's name. *)
Theorem models_queried_exactly_when_select_enabled
    (s : SidecarState) (availableModels : list string) :
  ModelSelect.modelsQueryEnabled s = negb (ModelController.selectDisabled s) ∧
  ModelSelect.generatedOptions None = None ∧
  (∃ options,
     ModelSelect.generatedOptions (Some availableModels) = Some options
     ∧ List.length options = List.length availableModels
     ∧ option_value <$> options = availableModels
     ∧ option_label <$> options = availableModels).
Proof.
  split_and!.
  - destruct s; reflexivity.
  - reflexivity.
  - eexists. split; [reflexivity|]. split_and!.
    + apply length_map.
    + rewrite <- list_fmap_compose. apply list_fmap_id.
    + rewrite <- list_fmap_compose. apply list_fmap_id.
Qed.

(** X5: choosing an option hands its value to the field, and clearing the
    select hands it undefined; an undefined or empty field value shows no
    option; a non-empty field value is shown as the option with that value
    and label, which hands back the same name when chosen and is one of the
    generated options when the model is available. *)
Theorem select_value_round_trip
    (name : string) (chosen : SelectOption) (availableModels : list string) :
  ModelSelect.onChange None = None ∧
  ModelSelect.onChange (Some chosen) = Some (option_value chosen) ∧
  ModelSelect.value None = None ∧
  ModelSelect.value (Some "") = None ∧
  (name ≠ "" →
     ModelSelect.value (Some name)
       = Some {| option_value := name; option_label := name |}
     ∧ ModelSelect.onChange (ModelSelect.value (Some name)) = Some name
     ∧ (name ∈ availableModels →
          ∃ options shown,
            ModelSelect.generatedOptions (Some availableModels) = Some options
            ∧ ModelSelect.value (Some name) = Some shown
            ∧ shown ∈ options)).
Proof.
  split_and!; [reflexivity | reflexivity | reflexivity | reflexivity |].
  intros Hne.
  assert (Hv : ModelSelect.value (Some name)
               = Some {| option_value := name; option_label := name |}).
  { unfold ModelSelect.value. destruct (String.eqb_spec name ""); [contradiction | reflexivity]. }
  split_and!.
  - exact Hv.
  - rewrite Hv. reflexivity.
  - intros Hin. eexists _, _. split; [reflexivity|]. split; [exact Hv|].
    apply list_elem_of_fmap. exists name. done.
Qed.

Lemma select_value_round_trip_witness :
  ModelSelect.onChange (ModelSelect.value (Some "llama3.2")) = Some "llama3.2".
Proof.
  apply (select_value_round_trip "llama3.2"
           {| option_value := "phi4"; option_label := "phi4" |} ["llama3.2"; "phi4"]).
  discriminate.
Defined.

(** ** Submissions of the provider setup form *)

(** X6: for the EMBEDDED provider [submitChanges] of the regular form makes
    no credential validation: its only calls are one write and one
    notification; the written object has the single key embeddedLLM, holding
    the submitted values, and no aiProviderType. *)
Theorem embedded_submission_skips_validation
    (env : Collaborators) (values : gmap string JsValue) (w : World) :
  let submit := RegularProviderSetupForm.submitChanges env EMBEDDED values in
  let payload : gmap string JsValue := {[ "embeddedLLM" := VObject values ]} in
  (∃ t, added submit w = [ EvUpdateSettings payload; EvToast t ]) ∧
  forallb (fun e => negb (isCredentialValidation e)) (added submit w) = true ∧
  payload !! "aiProviderType" = None ∧
  dom payload = ({[ "embeddedLLM" ]} : gset string) ∧
  store (after submit w)
    = match updateSettings_store env payload (store w) with
      | inr s' => s'
      | inl _ => store w
      end.
Proof.
  cbv zeta. unfold RegularProviderSetupForm.submitChanges.
  rewrite bool_decide_false by (intros H; apply H; reflexivity).
  split_and!.
  - run_handler. destruct (updateSettings_store env _ (store w)); cbn;
      rewrite <- ?app_assoc, drop_app_length; eexists; reflexivity.
  - run_handler. destruct (updateSettings_store env _ (store w)); cbn;
      rewrite <- ?app_assoc, drop_app_length; reflexivity.
  - apply lookup_singleton_ne. discriminate.
  - apply dom_singleton_L.
  - run_handler. destruct (updateSettings_store env _ (store w)); reflexivity.
Qed.

(** X7: a submission for a provider other than EMBEDDED attempts at most one
    write; when it resolves, the notifications are the validation success
    followed by the update success; when it rejects, there is exactly one
    destructive notification, alone or after the validation success, and the
    error it rejects with has a defined message. *)
Theorem submission_notifications
    (env : Collaborators) (p : AvailableAiProviders)
    (values : gmap string JsValue) (w : World) :
  p ≠ EMBEDDED →
  let submit := RegularProviderSetupForm.submitChanges env p values in
  let validated := {| title := "credential validation successful";
                      description := None; variant := None |} in
  let updated := {| title := "ai provider info updated";
                    description := None; variant := None |} in
  match outcome submit w with
  | inr _ => toasts (added submit w) = [ validated; updated ]
  | inl e =>
      (∃ failed, variant failed = Some "destructive"
                 ∧ (toasts (added submit w) = [ failed ]
                    ∨ toasts (added submit w) = [ validated; failed ]))
      ∧ is_Some (message e)
  end ∧
  (List.length (List.filter isUpdateSettings (added submit w)) ≤ 1)%nat.
Proof.
  intros Hp. cbv zeta. unfold RegularProviderSetupForm.submitChanges.
  rewrite bool_decide_true by done.
  run_handler.
  destruct (AiProviders_credentialValidation env p) as [validate|]; cbn.
  - destruct (validate values) as [e|]; cbn.
    + rewrite <- ?app_assoc, drop_app_length. cbn.
      split; [split; [eexists; split; [|left; reflexivity]; reflexivity | eauto] | lia].
    + destruct (updateSettings_store env _ (store w)); cbn;
        rewrite <- ?app_assoc, drop_app_length; cbn.
      * split; [split; [eexists; split; [|right; reflexivity]; reflexivity | eauto] | lia].
      * split; [reflexivity | lia].
  - destruct (updateSettings_store env _ (store w)); cbn;
      rewrite <- ?app_assoc, drop_app_length; cbn.
    + split; [split; [eexists; split; [|right; reflexivity]; reflexivity | eauto] | lia].
    + split; [reflexivity | lia].
Qed.

Lemma submission_notifications_witness :
  toasts (added (RegularProviderSetupForm.submitChanges Samples.mergingStore
                   (OTHER_PROVIDER "openai") Samples.goodKey) Samples.world0)
  = [ {| title := "credential validation successful";
         description := None; variant := None |};
      {| title := "ai provider info updated";
         description := None; variant := None |} ].
Proof.
  destruct (submission_notifications Samples.mergingStore (OTHER_PROVIDER "openai")
              Samples.goodKey Samples.world0) as [H _]; [discriminate|].
  exact H.
Defined.

(** X8: when the store's write throws, the port form of the sidecar
    controller and the embedded setup form reject with the thrown value
    itself, while the regular form's settings mutation rejects with a new
    Error that keeps only the message (the empty message when the thrown
    value had none). *)
Theorem rejection_values
    (parseInt : string → Z → JsNumber)
    (env : Collaborators) (st : Settings) (portInput : string)
    (p : AvailableAiProviders) (values : gmap string JsValue) (w : World) (e : Thrown) :
  updateSettings_store env
    {[ "embeddedLLM" := VObject (portFormRecord parseInt st portInput) ]} (store w) = inl e →
  updateSettings_store env values (store w) = inl e →
  outcome (SidecarController.handleFormSubmit parseInt env st portInput) w = inl e ∧
  outcome (EmbeddedSetupForm.submitChanges parseInt env st portInput) w = inl e ∧
  outcome (RegularProviderSetupForm.updateSettingsAsync env values) w
    = inl {| message := Some (default "" (message e)) |}.
Proof.
  intros H1 H2.
  assert (Hp : ({[ "embeddedLLM" :=
           VObject
             (<[ "port" := VNumber (parseInt portInput 10%Z) ]>
              (<[ "model" := VString (model (embeddedLLM st)) ]>
               (<[ "enabled" := VBool true ]> ∅))) ]} : gmap string JsValue)
     = {[ "embeddedLLM" := VObject (portFormRecord parseInt st portInput) ]}) by reflexivity.
  split_and!; run_handler; rewrite ?Hp, ?H1, ?H2; reflexivity.
Qed.

Lemma rejection_values_witness :
  outcome (SidecarController.handleFormSubmit Samples.parseIntOfSamples
           Samples.failingStore Samples.settings0 "8080")
          Samples.world0 = inl {| message := Some "disk full" |} ∧
  outcome (EmbeddedSetupForm.submitChanges Samples.parseIntOfSamples
           Samples.failingStore Samples.settings0 "8080")
          Samples.world0 = inl {| message := Some "disk full" |} ∧
  outcome (RegularProviderSetupForm.updateSettingsAsync Samples.failingStore Samples.badKey)
          Samples.world0 = inl {| message := Some "disk full" |}.
Proof.
  apply (rejection_values Samples.parseIntOfSamples
           Samples.failingStore Samples.settings0 "8080"
           (OTHER_PROVIDER "openai") Samples.badKey Samples.world0
           {| message := Some "disk full" |}); reflexivity.
Defined.

(** ** The port form *)


(** ** The rendered setup form *)

(** X11: once the query has delivered a form, the rendered form is dirty
    exactly when the selected provider differs from the persisted one and
    loading exactly when one of the two mutations is pending; its reset only
    sets the selection back to the persisted provider, and a render with that
    selection is not dirty.  No form is rendered only for SCREENPIPE_CLOUD
    without a user. *)
Theorem setup_form_dirty_until_reset
    (env : Collaborators) (p : AvailableAiProviders)
    (user : option (gmap string JsValue)) (st : Settings)
    (schema : FormSchema) (dv : gmap string JsValue) (pending1 pending2 : bool) (w : World) :
  let data := Some {| RegularProviderSetupForm.setupForm := Some schema;
                      RegularProviderSetupForm.defaultValues := dv |} in
  match RegularProviderSetupForm.setupFormElement
          (RegularProviderSetupForm.render env p user st data pending1 pending2) with
  | Some props =>
      (RegularProviderSetupForm.isDirty props = true ↔ p ≠ aiProviderType st) ∧
      (RegularProviderSetupForm.isLoading props = true
       ↔ pending1 = true ∨ pending2 = true) ∧
      RegularProviderSetupForm.form props = schema ∧
      RegularProviderSetupForm.form_defaultValues props = dv ∧
      added (RegularProviderSetupForm.onReset props) w
        = [ EvSetAiProvider (aiProviderType st) ] ∧
      store (after (RegularProviderSetupForm.onReset props) w) = store w
  | None => p = SCREENPIPE_CLOUD ∧ user = None
  end ∧
  match RegularProviderSetupForm.setupFormElement
          (RegularProviderSetupForm.render env (aiProviderType st) user st data
             pending1 pending2) with
  | Some props' => RegularProviderSetupForm.isDirty props' = false
  | None => aiProviderType st = SCREENPIPE_CLOUD ∧ user = None
  end.
Proof.
  cbv zeta. split.
  - unfold RegularProviderSetupForm.render, RegularProviderSetupForm.componentsVisibility.
    cbn.
    destruct (bool_decide (p = SCREENPIPE_CLOUD) && negb (bool_decide (is_Some user))) eqn:E;
      cbn.
    + apply andb_true_iff in E as [E1 E2].
      apply bool_decide_eq_true in E1. apply negb_true_iff, bool_decide_eq_false in E2.
      split; [done|]. by apply eq_None_not_Some.
    + split_and!.
      * rewrite negb_true_iff, bool_decide_eq_false. done.
      * rewrite orb_true_iff. done.
      * reflexivity.
      * reflexivity.
      * run_handler. apply drop_app_length.
      * reflexivity.
  - unfold RegularProviderSetupForm.render, RegularProviderSetupForm.componentsVisibility.
    cbn.
    destruct (bool_decide (aiProviderType st = SCREENPIPE_CLOUD)
              && negb (bool_decide (is_Some user))) eqn:E; cbn.
    + apply andb_true_iff in E as [E1 E2].
      apply bool_decide_eq_true in E1. apply negb_true_iff, bool_decide_eq_false in E2.
      split; [done|]. by apply eq_None_not_Some.
    + rewrite bool_decide_true by done. reflexivity.
Qed.

(** ** The form component *)

(** X12: [handleSubmit] of the form component does nothing without a form
    handle, not even calling the callback; with a handle it resets the form
    to the values it holds after the callback, and only when the callback
    resolved: a callback that throws leaves the form as it is and the error
    is passed on.  Without a callback the values are logged to the console
    and the form is reset. *)
Theorem form_submit_resets_only_after_the_callback
    (current : Form.FormRendererHandles)
    (create : gmap string JsValue → M unit)
    (values : gmap string JsValue) (fw : Form.FormWorld) :
  Form.handleSubmit None (Some create) values fw = (inr tt, fw) ∧
  Form.handleSubmit None None values fw = (inr tt, fw) ∧
  Form.handleSubmit (Some current) None values fw
    = (inr tt,
       {| Form.host :=
            {| store := store (Form.host fw);
               log := log (Form.host fw)
                      ++ [ EvFormReset (Some (Form.getValues current (Form.host fw))) ] |};
          Form.consoleLog :=
            Form.consoleLog fw ++ [ VObject {[ "values" := VObject values ]} ] |}) ∧
  match create values (Form.host fw) with
  | (inl e, w') =>
      Form.handleSubmit (Some current) (Some create) values fw
      = (inl e, {| Form.host := w'; Form.consoleLog := Form.consoleLog fw |})
  | (inr _, w') =>
      Form.handleSubmit (Some current) (Some create) values fw
      = (inr tt,
         {| Form.host :=
              {| store := store w';
                 log := log w' ++ [ EvFormReset (Some (Form.getValues current w')) ] |};
            Form.consoleLog := Form.consoleLog fw |})
  end.
Proof.
  split_and!; try reflexivity.
  unfold Form.handleSubmit, Form.liftHost, mbind, Form.FM_bind. cbn.
  destruct (create values (Form.host fw)) as [[e|[]] w']; reflexivity.
Qed.

(** X13: [resetForm] of the form component does nothing without a form
    handle, not even calling [onReset]; with a handle the form is reset
    first and [onReset] runs on the world after the reset, its outcome being
    the outcome of the whole. *)
Theorem form_reset_precedes_the_callback
    (current : Form.FormRendererHandles) (reset : M unit) (fw : Form.FormWorld) :
  let cleared := {| store := store (Form.host fw);
                    log := log (Form.host fw) ++ [ EvFormReset None ] |} in
  Form.resetForm None (Some reset) fw = (inr tt, fw) ∧
  Form.resetForm (Some current) None fw
    = (inr tt, {| Form.host := cleared; Form.consoleLog := Form.consoleLog fw |}) ∧
  Form.resetForm (Some current) (Some reset) fw
    = ((reset cleared).1,
       {| Form.host := (reset cleared).2; Form.consoleLog := Form.consoleLog fw |}).
Proof.
  cbv zeta. split_and!; try reflexivity.
  unfold Form.resetForm, Form.liftHost, mbind, Form.FM_bind, emit. cbn.
  destruct (reset _) as [r w']; reflexivity.
Qed.

(** ** The select wrapper *)

Lemma select_lookup (allProps : gmap string Select.PropValue) (k : string) :
  Select.elementProps (Select.Select allProps) !! k
  = if decide (k ∈ consumedProps) then None
    else match allProps !! k with
         | Some v => Some v
         | None => if decide (k = "isSearchable") then Some (Select.PropJs (VBool true)) else None
         end.
Proof.
  unfold Select.Select. cbn [Select.elementProps].
  rewrite lookup_delete, lookup_union, lookup_singleton, !lookup_delete.
  unfold consumedProps.
  destruct (decide (k = "styles")) as [->|?]; [reflexivity|].
  destruct (decide (k = "menuPlacement")) as [->|?]; [reflexivity|].
  destruct (decide (k = "components")) as [->|?]; [reflexivity|].
  destruct (decide (k = "isCreateable")) as [->|?]; [reflexivity|].
  destruct (decide (k = "isSpecial")) as [->|?]; [reflexivity|].
  rewrite (decide_False (P := k ∈ _)) by (set_unfold; intuition congruence).
  rewrite !decide_False by congruence.
  destruct (allProps !! k);
    destruct (decide ("isSearchable" = k)), (decide (k = "isSearchable"));
    try reflexivity; congruence.
Qed.

(** X14: the select wrapper never hands components, isCreateable, isSpecial,
    menuPlacement or the caller's styles to the underlying component: a
    caller cannot set the styles or the menu placement through it.  Every
    other prop reaches the component unchanged, isSearchable is true unless
    the caller sets it, the creatable component is used exactly for a truthy
    isCreateable, and styles are given exactly for a truthy isSpecial. *)
Theorem select_wrapper_forwarded_props
    (allProps : gmap string Select.PropValue) (k : string) (v : Select.PropValue) :
  let element := Select.Select allProps in
  (k ∈ consumedProps → Select.elementProps element !! k = None) ∧
  (k ∉ consumedProps → k ≠ "isSearchable" →
     Select.elementProps element !! k = allProps !! k) ∧
  Select.elementProps element !! "isSearchable"
    = Some (default (Select.PropJs (VBool true)) (allProps !! "isSearchable")) ∧
  (Select.comp element = Select.CreatableSelect
   ↔ Select.truthy (allProps !! "isCreateable") = true) ∧
  (Select.styles element = None ↔ Select.truthy (allProps !! "isSpecial") = false) ∧
  Select.styles (Select.Select (<[ "styles" := v ]> allProps)) = Select.styles element ∧
  Select.elementProps (Select.Select (<[ "styles" := v ]> allProps))
    = Select.elementProps element ∧
  Select.elementProps (Select.Select (<[ "menuPlacement" := v ]> allProps))
    = Select.elementProps element.
Proof.
  cbv zeta.
  assert (Hsame : ∀ c, c ∈ consumedProps →
            Select.elementProps (Select.Select (<[ c := v ]> allProps))
            = Select.elementProps (Select.Select allProps)).
  { intros c Hc. apply map_eq. intros j. rewrite !select_lookup.
    destruct (decide (j ∈ consumedProps)) as [Hj|Hj]; [reflexivity|].
    rewrite lookup_insert_ne by (intros ->; contradiction). reflexivity. }
  split_and!.
  - intros Hk. rewrite select_lookup. rewrite decide_True by done. reflexivity.
  - intros Hk Hs. rewrite select_lookup. rewrite decide_False by done.
    destruct (allProps !! k); [reflexivity|].
    rewrite decide_False by done. reflexivity.
  - rewrite select_lookup.
    rewrite decide_False by (unfold consumedProps; set_unfold; intuition discriminate).
    destruct (allProps !! "isSearchable"); reflexivity.
  - unfold Select.Select. cbn.
    destruct (Select.truthy (allProps !! "isCreateable")); split; done.
  - unfold Select.Select. cbn.
    destruct (Select.truthy (allProps !! "isSpecial")); split; done.
  - unfold Select.Select. cbn. rewrite lookup_insert_ne by done. reflexivity.
  - apply Hsame. unfold consumedProps. set_solver.
  - apply Hsame. unfold consumedProps. set_solver.
Qed.

Lemma select_wrapper_forwarded_props_witness :
  Select.elementProps
    (Select.Select {[ "styles" := Select.PropOpaque "callerStyles";
                      "isDisabled" := Select.PropJs (VBool true) ]}) !! "styles" = None.
Proof.
  apply (select_wrapper_forwarded_props _ "styles" (Select.PropJs VUndefined)).
  unfold consumedProps. set_solver.
Defined.

(** ** The permission states schema *)

Lemma permissions_schema_parse (isPermissionState : JsValue → bool)
    (o : gmap string JsValue) :
  PermissionsPerDevice.OSPermissionsStatesPerDeviceZodSchema isPermissionState (VObject o)
  = if from_option isPermissionState false (o !! "screenRecording")
       && (from_option isPermissionState false (o !! "microphone")
           && from_option isPermissionState false (o !! "accessibility"))
    then Some (filter (fun kv => kv.1 ∈ PermissionsPerDevice.deviceKeys) o)
    else None.
Proof.
  unfold PermissionsPerDevice.OSPermissionsStatesPerDeviceZodSchema.
  unfold PermissionsPerDevice.deviceKeys at 1. cbn [forallb].
  rewrite andb_true_r. reflexivity.
Qed.

(** X15: an object that the permission schema accepts is parsed to exactly
    the three device keys, each with the value of the input, which is a
    permission state; parsing the result again gives the same result; an
    input that lacks one of the three keys is rejected, and any other key of
    the input is ignored. *)
Theorem permissions_schema_keeps_the_three_devices
    (isPermissionState : JsValue → bool) (o parsed : gmap string JsValue)
    (k : string) (v : JsValue) :
  PermissionsPerDevice.OSPermissionsStatesPerDeviceZodSchema isPermissionState (VObject o)
    = Some parsed →
  dom parsed = (list_to_set PermissionsPerDevice.deviceKeys : gset string) ∧
  (∀ d, d ∈ PermissionsPerDevice.deviceKeys →
        parsed !! d = o !! d ∧ from_option isPermissionState false (parsed !! d) = true) ∧
  PermissionsPerDevice.OSPermissionsStatesPerDeviceZodSchema isPermissionState (VObject parsed)
    = Some parsed ∧
  (k ∈ PermissionsPerDevice.deviceKeys →
     PermissionsPerDevice.OSPermissionsStatesPerDeviceZodSchema isPermissionState
       (VObject (delete k o)) = None) ∧
  (k ∉ PermissionsPerDevice.deviceKeys →
     PermissionsPerDevice.OSPermissionsStatesPerDeviceZodSchema isPermissionState
       (VObject (<[ k := v ]> o)) = Some parsed).
Proof.
  rewrite permissions_schema_parse.
  destruct (from_option isPermissionState false (o !! "screenRecording")) eqn:H1; [|done].
  destruct (from_option isPermissionState false (o !! "microphone")) eqn:H2; [|done].
  destruct (from_option isPermissionState false (o !! "accessibility")) eqn:H3; [|done].
  intros Hparse. cbn in Hparse. injection Hparse as <-.
  assert (Hl : ∀ d, d ∈ PermissionsPerDevice.deviceKeys →
            filter (λ kv : string * JsValue, kv.1 ∈ PermissionsPerDevice.deviceKeys) o !! d
            = o !! d).
  { intros d Hd. destruct (o !! d) as [x|] eqn:Hx.
    - apply map_lookup_filter_Some. done.
    - apply map_lookup_filter_None. left. done. }
  assert (Hvalid : ∀ d, d ∈ PermissionsPerDevice.deviceKeys →
            from_option isPermissionState false (o !! d) = true).
  { intros d Hd. unfold PermissionsPerDevice.deviceKeys in Hd. set_unfold.
    destruct Hd as [-> | [-> | [-> | []]]]; done. }
  split_and!.
  - apply set_eq. intros d. rewrite elem_of_dom.
    transitivity (d ∈ PermissionsPerDevice.deviceKeys);
      [| unfold PermissionsPerDevice.deviceKeys; set_solver].
    split.
    + intros [x Hx]. apply map_lookup_filter_Some in Hx as [_ Hd]. exact Hd.
    + intros Hd. rewrite Hl by done. specialize (Hvalid d Hd).
      destruct (o !! d); [eauto | discriminate].
  - intros d Hd. rewrite Hl by done. split; [reflexivity | by apply Hvalid].
  - rewrite permissions_schema_parse.
    rewrite !Hl by (unfold PermissionsPerDevice.deviceKeys; set_solver).
    rewrite H1, H2, H3. cbn. f_equal.
    apply map_filter_id. intros d x Hx.
    apply map_lookup_filter_Some in Hx as [_ Hd]. exact Hd.
  - intros Hk. rewrite permissions_schema_parse.
    unfold PermissionsPerDevice.deviceKeys in Hk. set_unfold.
    destruct Hk as [-> | [-> | [-> | []]]]; rewrite lookup_delete_eq; cbn;
      rewrite ?andb_false_r; reflexivity.
  - intros Hk. rewrite permissions_schema_parse.
    rewrite !lookup_insert_ne
      by (intros ->; apply Hk; unfold PermissionsPerDevice.deviceKeys; set_solver).
    rewrite H1, H2, H3. cbn. f_equal.
    apply map_filter_insert_not. intros y. exact Hk.
Qed.

Lemma permissions_schema_keeps_the_three_devices_witness :
  dom MoreSamples.parsed = (list_to_set PermissionsPerDevice.deviceKeys : gset string) ∧
  PermissionsPerDevice.OSPermissionsStatesPerDeviceZodSchema MoreSamples.isPermissionState
    (VObject MoreSamples.parsed) = Some MoreSamples.parsed.
Proof.
  destruct (permissions_schema_keeps_the_three_devices MoreSamples.isPermissionState
              MoreSamples.reported MoreSamples.parsed "camera" VUndefined)
    as (H1 & _ & H3 & _); [reflexivity|].
  exact (conj H1 H3).
Defined.

(** ** The command-line error helper *)

(** X16: for every error [handleError] first logs the same three header
    lines, calls [process.exit] exactly once, with code 1 and as its last
    call, and logs one more line for a string or an Error, one line plus one
    per field for a validation error, and nothing more for any other value. *)
Theorem handleError_exits_once_at_the_end
    (highlighter_info : string → string) (e : CliErrors.ErrorValue) :
  let calls := CliErrors.handleError highlighter_info e in
  last calls = Some (EvProcessExit 1) ∧
  List.length (List.filter isProcessExit calls) = 1%nat ∧
  take 3 calls
    = [ EvLoggerError "Something went wrong. Please check the error below for more details.";
        EvLoggerError "If the problem persists, please open an issue on GitHub.";
        EvLoggerError "" ] ∧
  List.length calls
    = (5 + match e with
           | CliErrors.ErrString _ => 1
           | CliErrors.ErrZod _ fieldErrors => 1 + List.length fieldErrors
           | CliErrors.ErrError _ => 1
           | CliErrors.ErrOther => 0
           end)%nat.
Proof.
  cbv zeta. destruct e as [s | zm fe | m |]; cbn; try (split_and!; reflexivity).
  split_and!.
  - rewrite last_cons. rewrite last_app. reflexivity.
  - rewrite List.filter_app. cbn. rewrite length_app. cbn.
    replace (List.filter isProcessExit (map _ fe)) with (@nil Event); [reflexivity|].
    induction fe as [|[k v] fe IH]; [reflexivity | cbn; exact IH].
  - reflexivity.
  - rewrite length_app, length_map. cbn. lia.
Qed.
